(** * Symbolic algebra: expression trees, rendering, evaluation,
      differentiation, simplification, tokenizer and parser

    A shallow embedding of [symbolic_algebra.py].  The Python classes
    [Var], [Num] and the five [BinOp] subclasses become one inductive type;
    every method becomes a function on it.  A Python exception is a value
    [Raise x] of the result type, so that evaluation order and the place an
    exception comes from are explicit.  The interpreter's recursion limit
    is not modelled: the methods recurse on the tree, the parser on the
    token index. *)

From Stdlib Require Import ZArith String Ascii List Lia.
From Stdlib Require Import DecimalString DecimalZ DecimalPos DecimalN.
From Stdlib Require Import Floats.SpecFloat.
From stdpp Require Import gmap strings.

Open Scope Z_scope.

(** ** Results of Python computations *)

(** The exceptions the program can raise, by the name of their class. *)
Inductive exn : Set :=
  | NameError
  | ZeroDivisionError
  | OverflowError
  | TypeError
  | ValueError
  | IndexError
  | KeyError.

Inductive pyresult (A : Type) : Type :=
  | Ok (a : A)
  | Raise (x : exn).
Arguments Ok {A} a.
Arguments Raise {A} x.

#[global] Instance pyresult_ret : MRet pyresult := @Ok.
#[global] Instance pyresult_bind : MBind pyresult := fun A B f m =>
  match m with
  | Ok a => f a
  | Raise x => Raise x
  end.

Definition succeeds {A} (m : pyresult A) : Prop := exists a, m = Ok a.

(** ** Python numbers

    [Num.n] holds whatever the caller passed: an [int] (the literals
    [Num(0)], [Num(1)] of the code, and every fold of two ints), a [float]
    (everything the parser builds) or, after a fold with [**], a [complex].
    Ints are unbounded, floats are IEEE 754 binary64. *)

Definition prec : Z := 53.
Definition emax : Z := 1024.

Abbreviation pyfloat := spec_float.

Inductive pynum : Set :=
  | PyInt (z : Z)
  | PyFloat (f : spec_float)
  | PyComplex (re im : spec_float).

(** [0.0] and [1.0] *)
Definition fzero : pyfloat := S754_zero false.
Definition fone : pyfloat := S754_finite false 4503599627370496 (-52).

Definition is_infinity (f : pyfloat) : bool :=
  match f with S754_infinity _ => true | _ => false end.

Definition is_nan (f : pyfloat) : bool :=
  match f with S754_nan => true | _ => false end.

(** The float nearest to an integer (ties to even); [S754_infinity] when it
    is out of range. *)
Definition float_of_Z (z : Z) : pyfloat := binary_normalize prec emax z 0 false.

(** [float(n)]: an int too large raises [OverflowError], a complex
    [TypeError]. *)
Definition py_float (n : pynum) : pyresult pyfloat :=
  match n with
  | PyInt z =>
      let f := float_of_Z z in
      if is_infinity f then Raise OverflowError else Ok f
  | PyFloat f => Ok f
  | PyComplex _ _ => Raise TypeError
  end.

(** The operator classes, named as the subclasses of [BinOp]. *)
Inductive opclass : Set := Add | Sub | Mul | Div | Pow.

#[global] Instance opclass_eq_dec : EqDecision opclass.
Proof. solve_decision. Defined.

(** The exceptions arithmetic on numbers raises. *)
Definition arithmetic_error (x : exn) : Prop :=
  x = ZeroDivisionError \/ x = OverflowError \/ x = TypeError \/
  x = ValueError.

(** What Python leaves to the platform: the C library's [pow] behind
    [float.__pow__], arithmetic with a complex operand, and the shortest
    round-trip text of a float or a complex.  The development is parametric
    in them; all it uses is that they raise arithmetic errors only. *)
Class Platform : Type := {
  (** [float.__pow__] outside the case of a zero base with a negative finite
      exponent: a float, a complex for a negative base with a fractional
      exponent, or [OverflowError] *)
  float_pow_rest : pyfloat -> pyfloat -> pyresult pynum;
  (** [x op y] when [x] or [y] is a complex *)
  complex_arith : opclass -> pynum -> pynum -> pyresult pynum;
  (** [repr] of a float and of a complex *)
  float_repr : pyfloat -> string;
  complex_repr : pyfloat -> pyfloat -> string;
  float_pow_rest_raises : forall x y e,
    float_pow_rest x y = Raise e -> arithmetic_error e;
  complex_arith_raises : forall o a b e,
    complex_arith o a b = Raise e -> arithmetic_error e
}.

(** A statement about every platform, as one closed proposition. *)
Definition on_every_platform (P : Platform -> Prop) : Prop :=
  forall pf : Platform, P pf.

Section Numbers.
Context {pf : Platform}.

(** [x ** y] on floats: [0.0 ** y] with [y] negative and finite raises
    [ZeroDivisionError]. *)
Definition float_pow (x y : pyfloat) : pyresult pynum :=
  if SFeqb x fzero && SFltb y fzero && negb (is_infinity y)
  then Raise ZeroDivisionError
  else float_pow_rest x y.

(** [x / y] on floats: Python raises on a zero divisor where IEEE 754
    would give an infinity or a NaN. *)
Definition float_div (x y : pyfloat) : pyresult pynum :=
  if SFeqb y fzero then Raise ZeroDivisionError
  else Ok (PyFloat (SFdiv prec emax x y)).

Definition float_arith (o : opclass) (x y : pyfloat) : pyresult pynum :=
  match o with
  | Add => Ok (PyFloat (SFadd prec emax x y))
  | Sub => Ok (PyFloat (SFsub prec emax x y))
  | Mul => Ok (PyFloat (SFmul prec emax x y))
  | Div => float_div x y
  | Pow => float_pow x y
  end.

(** [x / y] on ints is the correctly rounded quotient. *)
Definition int_truediv (x y : Z) : pyresult pynum :=
  match y, x with
  | Z0, _ => Raise ZeroDivisionError
  | _, Z0 => Ok (PyFloat (S754_zero (y <? 0)))
  | _, _ =>
      let q := SFdiv prec emax
                 (S754_finite (x <? 0) (Z.to_pos (Z.abs x)) 0)
                 (S754_finite (y <? 0) (Z.to_pos (Z.abs y)) 0) in
      if is_infinity q then Raise OverflowError else Ok (PyFloat q)
  end.

(** [x ** y] on ints is exact for [y >= 0] and a float power otherwise. *)
Definition int_pow (x y : Z) : pyresult pynum :=
  if 0 <=? y then Ok (PyInt (x ^ y))
  else
    fx ← py_float (PyInt x);
    fy ← py_float (PyInt y);
    float_pow fx fy.

Definition int_arith (o : opclass) (x y : Z) : pyresult pynum :=
  match o with
  | Add => Ok (PyInt (x + y))
  | Sub => Ok (PyInt (x - y))
  | Mul => Ok (PyInt (x * y))
  | Div => int_truediv x y
  | Pow => int_pow x y
  end.

(** The binary operators [+ - * / **] on numbers: two ints stay in the
    ints, an int next to a float is converted first. *)
Definition py_arith (o : opclass) (a b : pynum) : pyresult pynum :=
  match a, b with
  | PyComplex _ _, _ | _, PyComplex _ _ => complex_arith o a b
  | PyInt x, PyInt y => int_arith o x y
  | _, _ =>
      fa ← py_float a;
      fb ← py_float b;
      float_arith o fa fb
  end.

(** [str(n)] *)
Definition py_str (n : pynum) : string :=
  match n with
  | PyInt z => NilZero.string_of_int (Z.to_int z)
  | PyFloat f => float_repr f
  | PyComplex re im => complex_repr re im
  end.
End Numbers.

(** [n > 0]: exact on ints and floats, [TypeError] on a complex. *)
Definition py_gt0 (n : pynum) : pyresult bool :=
  match n with
  | PyInt z => Ok (0 <? z)
  | PyFloat f => Ok (SFltb fzero f)
  | PyComplex _ _ => Raise TypeError
  end.

(** ** The expression tree (classes [Symbol], [Var], [Num], [BinOp]) *)

Inductive expr : Set :=
  | Var (name : string)
  | Num (n : pynum)
  | BinOp (cls : opclass) (left right : expr).

(** The class attributes [opp], [precedence], [right_parens] and
    [left_parens]; a leaf inherits the two flags from [Symbol]. *)
Definition opp (cls : opclass) : string :=
  match cls with
  | Add => "+"
  | Sub => "-"
  | Mul => "*"
  | Div => "/"
  | Pow => "**"
  end.

Definition class_precedence (cls : opclass) : Z :=
  match cls with
  | Add | Sub => 5
  | Mul | Div | Pow => 10
  end.

Definition precedence (e : expr) : Z :=
  match e with
  | Var _ | Num _ => 100
  | BinOp cls _ _ => class_precedence cls
  end.

Definition right_parens (cls : opclass) : bool :=
  match cls with
  | Sub | Div => true
  | _ => false
  end.

Definition left_parens (cls : opclass) : bool :=
  match cls with
  | Pow => true
  | _ => false
  end.

(** Number of nodes of a tree. *)
Fixpoint node_count (e : expr) : nat :=
  match e with
  | Var _ | Num _ => 1
  | BinOp _ l r => S (node_count l + node_count r)
  end.

(** Number of binary-operation nodes of a tree. *)
Fixpoint binop_count (e : expr) : nat :=
  match e with
  | Var _ | Num _ => 0
  | BinOp _ l r => S (binop_count l + binop_count r)
  end.

(** The variable names of a tree. *)
Fixpoint vars (e : expr) : gset string :=
  match e with
  | Var name => {[ name ]}
  | Num _ => ∅
  | BinOp _ l r => vars l ∪ vars r
  end.

(** The arguments of [BinOp.__init__]: a symbol, or a raw int, float or
    string, which the initializer wraps in [Num] or [Var].  The operators
    of [Symbol] ([__add__], [__sub__], ...) pass their operands to it. *)
Inductive operand : Set :=
  | Symbol (e : expr)
  | Number (n : pynum)
  | Name (s : string).

Definition wrap (a : operand) : expr :=
  match a with
  | Symbol e => e
  | Number n => Num n
  | Name s => Var s
  end.

Definition BinOp_init (cls : opclass) (left right : operand) : expr :=
  BinOp cls (wrap left) (wrap right).

(** ** [deriv] *)

(** [Pow.deriv] writes [self.right - 1], which is
    [Sub(self.right, 1)] and so [Sub(self.right, Num(1))]. *)

Fixpoint deriv (e : expr) (wrt : string) : expr :=
  match e with
  | Var name => if String.eqb name wrt then Num (PyInt 1) else Num (PyInt 0)
  | Num _ => Num (PyInt 0)
  | BinOp Add l r => BinOp Add (deriv l wrt) (deriv r wrt)
  | BinOp Sub l r => BinOp Sub (deriv l wrt) (deriv r wrt)
  | BinOp Mul l r =>
      BinOp Add (BinOp Mul l (deriv r wrt))
                (BinOp Mul r (deriv l wrt))
  | BinOp Div l r =>
      BinOp Div
        (BinOp Sub (BinOp Mul r (deriv l wrt))
                   (BinOp Mul l (deriv r wrt)))
        (BinOp Mul r r)
  | BinOp Pow l r =>
      BinOp Mul
        (BinOp Mul r
           (BinOp Pow l (BinOp_init Sub (Symbol r) (Number (PyInt 1)))))
        (deriv l wrt)
  end.

(** ** [__eq__]

    [Var.__eq__] compares names, [Num.__eq__] compares [float(self.n)] with
    [float(other.n)], [BinOp.__eq__] compares the classes and then the
    children, left first, stopping at the first difference.  A conversion to
    float can raise. *)

Definition py_and (a b : pyresult bool) : pyresult bool :=
  x ← a; if (x : bool) then b else Ok false.

Definition py_or (a b : pyresult bool) : pyresult bool :=
  x ← a; if (x : bool) then Ok true else b.

Fixpoint expr_eq (self other : expr) : pyresult bool :=
  match self, other with
  | Var a, Var b => Ok (String.eqb a b)
  | Var _, _ => Ok false
  | Num a, Num b =>
      x ← py_float a;
      y ← py_float b;
      Ok (SFeqb x y)
  | Num _, _ => Ok false
  | BinOp c1 l1 r1, BinOp c2 l2 r2 =>
      if bool_decide (c1 = c2)
      then py_and (expr_eq l1 l2)
             (py_and (expr_eq r1 r2) (Ok (String.eqb (opp c1) (opp c2))))
      else Ok false
  | BinOp _ _ _, _ => Ok false
  end.

(** ** [__str__], [eval] and [simplify] *)

Section Methods.
Context {pf : Platform}.

Definition parenthesize (s : string) : string := "(" +:+ s +:+ ")".

(** [BinOp.__str__]; the leaves print their name or [str(self.n)]. *)
Fixpoint render (e : expr) : string :=
  match e with
  | Var name => name
  | Num n => py_str n
  | BinOp cls l r =>
      let ret_str_l := render l in
      let ret_str_m := " " +:+ opp cls +:+ " " in
      let ret_str_r := render r in
      let ret_str_l :=
        if (precedence l <? class_precedence cls)
           || ((precedence l <=? class_precedence cls) && left_parens cls)
        then parenthesize ret_str_l else ret_str_l in
      let ret_str_r :=
        if precedence r <? class_precedence cls
        then parenthesize ret_str_r
        else if right_parens cls && (precedence r =? class_precedence cls)
        then parenthesize ret_str_r
        else ret_str_r in
      ret_str_l +:+ ret_str_m +:+ ret_str_r
  end.

(** [eval]: [Var.eval] is [assignments.get(self.name, None)], so a missing
    name gives [None]; [BinOp.eval] raises [NameError] when a child gave
    [None] and applies [operate] otherwise. *)
Fixpoint eval (e : expr) (assignments : gmap string pynum)
  : pyresult (option pynum) :=
  match e with
  | Var name => Ok (assignments !! name)
  | Num n => f ← py_float n; Ok (Some (PyFloat f))
  | BinOp cls l r =>
      l_eval ← eval l assignments;
      r_eval ← eval r assignments;
      match l_eval, r_eval with
      | Some l, Some r => v ← py_arith cls l r; Ok (Some v)
      | _, _ => Raise NameError
      end
  end.

Definition is_num (e : expr) (z : Z) : pyresult bool :=
  expr_eq e (Num (PyInt z)).

(** The constant fold at the end of every [simplify]. *)
Definition fold_or_rebuild (cls : opclass) (l_simpl r_simpl : expr)
  : pyresult expr :=
  match l_simpl, r_simpl with
  | Num a, Num b => n ← py_arith cls a b; Ok (Num n)
  | _, _ => Ok (BinOp cls l_simpl r_simpl)
  end.

(** The guard of the third branch of [Pow.simplify]. *)
Definition pow_zero_base (l_simpl r_simpl : expr) : pyresult bool :=
  py_and (is_num l_simpl 0)
    (match r_simpl with
     | Var _ => Ok true
     | Num n => py_gt0 n
     | BinOp _ _ _ => Ok false
     end).

(** [simplify], one branch per class.  [Sub], [Mul] and [Div] call
    [self.left.simplify()] or [self.right.simplify()] a second time where
    they return a child. *)
Fixpoint simplify (e : expr) : pyresult expr :=
  match e with
  | Var _ | Num _ => Ok e
  | BinOp Add l r =>
      l_simpl ← simplify l;
      r_simpl ← simplify r;
      c ← py_and (is_num l_simpl 0) (is_num r_simpl 0);
      if (c : bool) then Ok (Num (PyInt 0)) else
      c ← is_num l_simpl 0;
      if (c : bool) then Ok r_simpl else
      c ← is_num r_simpl 0;
      if (c : bool) then Ok l_simpl else
      fold_or_rebuild Add l_simpl r_simpl
  | BinOp Sub l r =>
      l_simpl ← simplify l;
      r_simpl ← simplify r;
      c ← py_and (is_num l_simpl 0) (is_num r_simpl 0);
      if (c : bool) then Ok (Num (PyInt 0)) else
      c ← is_num r_simpl 0;
      if (c : bool) then simplify l else
      fold_or_rebuild Sub l_simpl r_simpl
  | BinOp Mul l r =>
      l_simpl ← simplify l;
      r_simpl ← simplify r;
      c ← py_or (is_num l_simpl 0) (is_num r_simpl 0);
      if (c : bool) then Ok (Num (PyInt 0)) else
      c ← is_num l_simpl 1;
      if (c : bool) then simplify r else
      c ← is_num r_simpl 1;
      if (c : bool) then simplify l else
      fold_or_rebuild Mul l_simpl r_simpl
  | BinOp Div l r =>
      l_simpl ← simplify l;
      r_simpl ← simplify r;
      c ← is_num l_simpl 0;
      if (c : bool) then Ok (Num (PyInt 0)) else
      c ← is_num r_simpl 1;
      if (c : bool) then simplify l else
      fold_or_rebuild Div l_simpl r_simpl
  | BinOp Pow l r =>
      l_simpl ← simplify l;
      r_simpl ← simplify r;
      c ← is_num r_simpl 0;
      if (c : bool) then Ok (Num (PyInt 1)) else
      c ← is_num r_simpl 1;
      if (c : bool) then Ok l_simpl else
      c ← pow_zero_base l_simpl r_simpl;
      if (c : bool) then Ok (Num (PyInt 0)) else
      fold_or_rebuild Pow l_simpl r_simpl
  end.
End Methods.

(** ** [__repr__] *)

(** The module's dictionary from operator symbols to class names. *)
Definition symbol_dict (operator : string) : pyresult string :=
  if String.eqb operator "+" then Ok "Add"
  else if String.eqb operator "-" then Ok "Sub"
  else if String.eqb operator "*" then Ok "Mul"
  else if String.eqb operator "/" then Ok "Div"
  else if String.eqb operator "**" then Ok "Pow"
  else Raise KeyError.

Section Repr.
Context {pf : Platform}.

(** [Var.__repr__], [Num.__repr__] and [BinOp.__repr__]; the last one
    looks the class name up under [self.opp]. *)
Fixpoint repr (e : expr) : pyresult string :=
  match e with
  | Var name => Ok ("Var('" +:+ name +:+ "')")
  | Num n => Ok ("Num(" +:+ py_str n +:+ ")")
  | BinOp cls l r =>
      name ← symbol_dict (opp cls);
      repr_left ← repr l;
      repr_right ← repr r;
      Ok (name +:+ "(" +:+ repr_left +:+ ", " +:+ repr_right +:+ ")")
  end.
End Repr.

(** ** Strings

    Input text is ASCII.  [isdigit] and [isalpha] are Python's [str.isdigit]
    and [str.isalpha] on it. *)

Definition isdigit (c : ascii) : bool :=
  let n := N_of_ascii c in ((48 <=? n) && (n <=? 57))%N.

Definition isalpha_char (c : ascii) : bool :=
  let n := N_of_ascii c in
  (((65 <=? n) && (n <=? 90)) || ((97 <=? n) && (n <=? 122)))%N.

Fixpoint all_chars (p : ascii -> bool) (s : string) : bool :=
  match s with
  | EmptyString => true
  | String c rest => p c && all_chars p rest
  end.

(** [s.isalpha()]: every character is a letter and there is at least one. *)
Definition isalpha (s : string) : bool :=
  match s with
  | EmptyString => false
  | _ => all_chars isalpha_char s
  end.

(** [l[i]] on a Python list: a negative index counts from the end, an index
    out of range raises [IndexError]. *)
Definition py_index {A} (l : list A) (i : Z) : pyresult A :=
  let n := Z.of_nat (length l) in
  let j := if i <? 0 then i + n else i in
  if (j <? 0) || (n <=? j) then Raise IndexError
  else match l !! Z.to_nat j with
       | Some x => Ok x
       | None => Raise IndexError
       end.

(** [s[i]] on a string, for [i >= 0]. *)
Definition str_index (s : string) (i : nat) : pyresult ascii :=
  match String.get i s with
  | Some c => Ok c
  | None => Raise IndexError
  end.

(** ** [float(token)]

    The decimal literals [[+-]digits[.digits]] and [[+-].digits], rounded to
    the nearest float (ties to even); an integer literal takes the same path
    as an int.  These are the literals a token of [tokenize] can spell: its
    numeric tokens hold digits, [.] and [-] only.  Python's [float] also
    reads exponents, [inf], [nan], underscores and surrounding blanks, which
    are not modelled: such a string raises [ValueError] here. *)

Fixpoint split_point (s : string) : string * option string :=
  match s with
  | EmptyString => (EmptyString, None)
  | String c rest =>
      if Ascii.eqb c "." then (EmptyString, Some rest)
      else let '(a, b) := split_point rest in (String c a, b)
  end.

Definition split_sign (s : string) : bool * string :=
  match s with
  | String "-" rest => (true, rest)
  | String "+" rest => (false, rest)
  | _ => (false, s)
  end.

(** Sign, digits read as one number, and how many of them follow the
    point. *)
Definition decimal_literal (s : string) : option (bool * N * nat) :=
  let '(neg, body) := split_sign s in
  let '(ip, fp) := split_point body in
  let fp := default EmptyString fp in
  if String.eqb ip "" && String.eqb fp "" then None
  else
    match NilEmpty.uint_of_string ip, NilEmpty.uint_of_string fp with
    | Some i, Some f =>
        Some (neg,
              (N.of_uint i * 10 ^ N.of_nat (String.length fp) + N.of_uint f)%N,
              String.length fp)
    | _, _ => None
    end.

Definition float_of_decimal (neg : bool) (m : N) (k : nat) : pyfloat :=
  match m, k with
  | N0, _ => S754_zero neg
  | Npos p, O => float_of_Z (if neg then Zneg p else Zpos p)
  | Npos p, _ =>
      SFdiv prec emax (S754_finite neg p 0)
                      (S754_finite false (10 ^ Pos.of_nat k) 0)
  end.

Definition py_float_of_string (s : string) : pyresult pyfloat :=
  match decimal_literal s with
  | Some (neg, m, k) => Ok (float_of_decimal neg m k)
  | None => Raise ValueError
  end.

(** ** [tokenize] *)

(** [case]: drop the sentinel, then a leading empty token. *)
Definition case (tokenized : list string) : pyresult (list string) :=
  match tokenized with
  | [] => Raise IndexError
  | _ :: _ =>
      match removelast tokenized with
      | [] => Raise IndexError
      | t :: rest => if String.eqb t "" then Ok rest else Ok (t :: rest)
      end
  end.

Definition char_token (char : ascii) : string := String char EmptyString.

(** Whether [char] at position [i] extends the numeric run: a digit, a
    point, or a minus sign before a digit or a point.  The look-ahead reads
    [inp_str], which has no sentinel, so a minus sign that ends the input
    raises [IndexError]. *)
Definition extends_number (inp_str : string) (i : nat) (char : ascii)
  : pyresult bool :=
  if isdigit char || Ascii.eqb char "." then Ok true
  else if Ascii.eqb char "-" then
    next ← str_index inp_str (S i);
    Ok (isdigit next || Ascii.eqb next ".")
  else Ok false.

(** The loop of [tokenize] from position [i] on, over the characters
    [chars] that are left of [inp_str + "|"]. *)
Fixpoint tokenize_loop (inp_str chars : string) (i : nat)
    (tokenized : list string) (num_add : string) : pyresult (list string) :=
  match chars with
  | EmptyString => Ok tokenized
  | String char rest =>
      if Ascii.eqb char " " || Ascii.eqb char ")"
      then tokenize_loop inp_str rest (S i) tokenized num_add
      else
        c ← extends_number inp_str i char;
        if (c : bool)
        then tokenize_loop inp_str rest (S i) tokenized
               (num_add +:+ char_token char)
        else
          let tokenized :=
            if String.eqb num_add "" then tokenized
            else tokenized ++ [num_add] in
          tokenize_loop inp_str rest (S i) (tokenized ++ [char_token char])
            EmptyString
  end.

Definition tokenize (inp_str : string) : pyresult (list string) :=
  tokenized ← tokenize_loop inp_str (inp_str +:+ "|") 0 [] EmptyString;
  case tokenized.

(** ** [parse] *)

Definition symbol_dict_class (operator : string) : pyresult opclass :=
  if String.eqb operator "+" then Ok Add
  else if String.eqb operator "-" then Ok Sub
  else if String.eqb operator "*" then Ok Mul
  else if String.eqb operator "/" then Ok Div
  else if String.eqb operator "**" then Ok Pow
  else Raise KeyError.

(** [token[0] == "-" or token[0].isdigit() or token[0] == "."] *)
Definition starts_number (token : string) : pyresult bool :=
  c ← str_index token 0;
  Ok (Ascii.eqb c "-" || isdigit c || Ascii.eqb c ".").

(** A branch of [parse_expression] that returns nothing returns [None], and
    unpacking [None] into two names raises [TypeError]. *)
Definition unpack {A} (r : option A) : pyresult A :=
  match r with
  | Some a => Ok a
  | None => Raise TypeError
  end.

(** [parse_expression(index)].  The recursion is on the index, which every
    call increases; [fuel] bounds the number of nested calls and [parse]
    gives enough of it (see [parse_expression_fuel]).  [None] stands for
    running out of fuel, which is not a result of the Python function. *)
Fixpoint parse_expression (fuel : nat) (tokens : list string) (index : nat)
  : option (pyresult (option (expr * nat))) :=
  match fuel with
  | O => None
  | S fuel =>
      match py_index tokens (Z.of_nat index) with
      | Raise x => Some (Raise x)
      | Ok token =>
          match starts_number token with
          | Raise x => Some (Raise x)
          | Ok true =>
              Some (f ← py_float_of_string token;
                    Ok (Some (Num (PyFloat f), S index)))
          | Ok false =>
              if isalpha token then Some (Ok (Some (Var token, S index)))
              else if String.eqb token "(" then
                match parse_expression fuel tokens (S index) with
                | None => None
                | Some (Raise x) => Some (Raise x)
                | Some (Ok left_r) =>
                    match unpack left_r with
                    | Raise x => Some (Raise x)
                    | Ok (left_exp, opp_ind) =>
                        match py_index tokens (Z.of_nat opp_ind) with
                        | Raise x => Some (Raise x)
                        | Ok operator =>
                            match parse_expression fuel tokens (S opp_ind) with
                            | None => None
                            | Some (Raise x) => Some (Raise x)
                            | Some (Ok right_r) =>
                                Some (
                                  '(right_exp, right_paren) ← unpack right_r;
                                  cls ← symbol_dict_class operator;
                                  Ok (Some (BinOp cls left_exp right_exp,
                                            right_paren)))
                            end
                        end
                    end
                end
              else Some (Ok None)
          end
      end
  end.

(** [parse]; its [print(parsed_expression)] writes to standard output and
    has no part in the result. *)
Definition parse (tokens : list string) : option (pyresult expr) :=
  match parse_expression (S (length tokens)) tokens 0 with
  | None => None
  | Some r => Some ('(parsed_expression, next_index) ← (r ≫= unpack);
                    Ok parsed_expression)
  end.

(** ** [expression] *)

(** The loop of [expression] from position [i] on: a [*] before a [*] is
    skipped and a [*] after a [*] becomes [**].  [tokenized_lst[i - 1]] at
    [i = 0] is the last token. *)
Fixpoint expression_loop (tokenized_lst todo : list string) (i : nat)
    (new_tok_list : list string) : pyresult (list string) :=
  match todo with
  | [] => Ok new_tok_list
  | token :: rest =>
      c ← (if String.eqb token "*"
           then next ← py_index tokenized_lst (Z.of_nat i + 1);
                Ok (String.eqb next "*")
           else Ok false);
      if (c : bool)
      then expression_loop tokenized_lst rest (S i) new_tok_list
      else
        c ← (if String.eqb token "*"
             then prev ← py_index tokenized_lst (Z.of_nat i - 1);
                  Ok (String.eqb prev "*")
             else Ok false);
        if (c : bool)
        then expression_loop tokenized_lst rest (S i) (new_tok_list ++ ["**"])
        else expression_loop tokenized_lst rest (S i) (new_tok_list ++ [token])
  end.

Definition expression (expression_str : string) : option (pyresult expr) :=
  match tokenize expression_str with
  | Raise x => Some (Raise x)
  | Ok tokenized_lst =>
      match expression_loop tokenized_lst tokenized_lst 0 [] with
      | Raise x => Some (Raise x)
      | Ok new_tok_list => parse new_tok_list
      end
  end.

(** * Notions the properties are stated with *)

(** ** Fragments of the trees *)

(** Trees as the parser builds them: every number is a float. *)
Fixpoint float_leaves (e : expr) : bool :=
  match e with
  | Var _ => true
  | Num (PyFloat _) => true
  | Num _ => false
  | BinOp _ l r => float_leaves l && float_leaves r
  end.

(** Trees without a [Div] and without a [Pow]. *)
Fixpoint no_div_pow (e : expr) : bool :=
  match e with
  | Var _ | Num _ => true
  | BinOp (Div | Pow) _ _ => false
  | BinOp _ l r => no_div_pow l && no_div_pow r
  end.

(** The numbers of a simplified tree of this kind: floats, and the [Num(0)]
    the zero rules write. *)
Fixpoint float_or_zero_leaves (e : expr) : bool :=
  match e with
  | Var _ => true
  | Num (PyFloat _) => true
  | Num (PyInt 0) => true
  | Num _ => false
  | BinOp _ l r => float_or_zero_leaves l && float_or_zero_leaves r
  end.

(** The opening parentheses of a text, and the ["("] tokens of a token
    list. *)
Fixpoint count_open_chars (s : string) : nat :=
  match s with
  | EmptyString => 0
  | String c rest =>
      ((if Ascii.eqb c "(" then 1 else 0) + count_open_chars rest)%nat
  end.

Fixpoint count_open (tokens : list string) : nat :=
  match tokens with
  | [] => 0
  | t :: rest => ((if String.eqb t "(" then 1 else 0) + count_open rest)%nat
  end.

(** Leaves as the grammar writes them: an int, or a name made of
    letters. *)
Fixpoint plain_leaves (e : expr) : bool :=
  match e with
  | Var name => isalpha name
  | Num (PyInt _) => true
  | Num _ => false
  | BinOp _ l r => plain_leaves l && plain_leaves r
  end.

Definition is_binop (e : expr) : bool :=
  match e with
  | BinOp _ _ _ => true
  | _ => false
  end.

(** Trees in which no binary operation has two numbers as operands. *)
Fixpoint constants_folded (e : expr) : bool :=
  match e with
  | Var _ | Num _ => true
  | BinOp _ (Num _) (Num _) => false
  | BinOp _ l r => constants_folded l && constants_folded r
  end.

(** ** Equality up to [==] *)

(** A tree with its numbers erased: what is left is the operators, the
    grouping and the variable names. *)
Fixpoint skeleton (e : expr) : expr :=
  match e with
  | Var name => Var name
  | Num _ => Num (PyInt 0)
  | BinOp cls l r => BinOp cls (skeleton l) (skeleton r)
  end.

(** Trees whose numbers [float] converts, to something that is not a
    NaN. *)
Fixpoint numbers_comparable (e : expr) : bool :=
  match e with
  | Var _ => true
  | Num n =>
      match py_float n with
      | Ok f => negb (is_nan f)
      | Raise _ => false
      end
  | BinOp _ l r => numbers_comparable l && numbers_comparable r
  end.

(** The result of [simplify] on [e] with an identity element beside it:
    the tree [s] that [simplify e] returns, or a tree equal to it. *)
Definition same_or_equal (r : pyresult expr) (s : expr) : Prop :=
  exists s', r = Ok s' /\ (s' = s \/ expr_eq s' s = Ok true).

(** ** Characters and tokens *)

(** The characters [tokenize] drops, and the characters of a numeric
    run. *)
Definition skipped_char (c : ascii) : bool :=
  Ascii.eqb c " " || Ascii.eqb c ")".

Definition numeric_char (c : ascii) : bool :=
  isdigit c || Ascii.eqb c "." || Ascii.eqb c "-".

(** A token is a numeric run or one character that is not dropped; it is
    never empty. *)
Definition well_formed_token (t : string) : bool :=
  match t with
  | EmptyString => false
  | String c EmptyString => negb (skipped_char c)
  | _ => all_chars numeric_char t
  end.

(** One token per character. *)
Fixpoint letter_tokens (s : string) : list string :=
  match s with
  | EmptyString => []
  | String c rest => char_token c :: letter_tokens rest
  end.

(** The first character of a text, if any, fails [p]. *)
Definition stops (p : ascii -> bool) (t : string) : bool :=
  match t with
  | EmptyString => true
  | String c _ => negb (p c)
  end.

(** The characters of [str(z)]. *)
Definition int_char (c : ascii) : bool := isdigit c || Ascii.eqb c "-".

(** Any character but the quote that closes a name in [__repr__]. *)
Definition name_char (c : ascii) : bool := negb (Ascii.eqb c "'").

(** Trees whose numbers are ints and whose names hold no quote. *)
Fixpoint quotable_leaves (e : expr) : bool :=
  match e with
  | Var name => all_chars name_char name
  | Num (PyInt _) => true
  | Num _ => false
  | BinOp _ l r => quotable_leaves l && quotable_leaves r
  end.

(** The int and float zeros. *)
Definition is_zero (n : pynum) : bool :=
  match n with
  | PyInt z => z =? 0
  | PyFloat f => SFeqb f fzero
  | PyComplex _ _ => false
  end.

(** ** The grammar *)

(** The token sequences of the grammar
    [expr := NUMBER | VARNAME | "(" expr OPERATOR expr], closing parentheses
    being dropped by [tokenize], each with the tree it stands for. *)
Inductive forms : list string -> expr -> Prop :=
  | forms_number (token : string) (f : pyfloat) :
      starts_number token = Ok true ->
      py_float_of_string token = Ok f ->
      forms [token] (Num (PyFloat f))
  | forms_variable (token : string) :
      isalpha token = true ->
      forms [token] (Var token)
  | forms_binop (operator : string) (cls : opclass)
      (tl tr : list string) (l r : expr) :
      symbol_dict_class operator = Ok cls ->
      forms tl l -> forms tr r ->
      forms ("(" :: tl ++ operator :: tr) (BinOp cls l r).

(** ** The trees of scenario 6 of the specification *)

Definition two_times_sum : expr :=
  BinOp Mul (Num (PyFloat (float_of_Z 2)))
    (BinOp Add (Num (PyFloat (float_of_Z 5))) (Num (PyFloat (float_of_Z 3)))).

Definition two_times_sum_to_the_one : expr :=
  BinOp Mul (Num (PyFloat (float_of_Z 2)))
    (BinOp Pow
       (BinOp Add (Num (PyFloat (float_of_Z 5)))
                  (Num (PyFloat (float_of_Z 3))))
       (Num (PyFloat (float_of_Z 1)))).

(** * Properties *)

Ltac unbind := unfold mbind, pyresult_bind, mret, pyresult_ret in *.

(** Case analysis on the first [match] whose scrutinee blocks the goal. *)
Ltac case_scrutinee :=
  match goal with
  | |- context [match ?c with _ => _ end] =>
      lazymatch c with
      | context [match _ with _ => _ end] => fail
      | _ => destruct c eqn:?
      end
  end.

(** ** Floats and [__eq__] *)

Lemma SFcompare_antisym (x y : pyfloat) :
  SFcompare y x = CompOpp <$> SFcompare x y.
Proof.
  destruct x as [sx|sx| |sx mx ex], y as [sy|sy| |sy my ey]; simpl;
    try reflexivity; try (destruct sx; reflexivity);
    try (destruct sy; reflexivity);
    try (destruct sx, sy; reflexivity).
  change (Pcompare my mx Eq) with (Pos.compare my mx).
  change (Pcompare mx my Eq) with (Pos.compare mx my).
  rewrite (Z.compare_antisym ex ey), (Pos.compare_antisym mx my).
  destruct sx, sy; simpl; try reflexivity;
    destruct (ex ?= ey); simpl; try reflexivity;
    destruct (mx ?= my)%positive; reflexivity.
Qed.

Lemma SFeqb_sym (x y : pyfloat) : SFeqb x y = SFeqb y x.
Proof.
  unfold SFeqb. rewrite (SFcompare_antisym x y).
  destruct (SFcompare x y) as [[]|]; reflexivity.
Qed.

Lemma SFeqb_refl (x : pyfloat) : is_nan x = false -> SFeqb x x = true.
Proof.
  unfold SFeqb.
  destruct x as [s|s| |s m e]; simpl; try discriminate; intros _;
    try (destruct s; reflexivity).
  change (Pcompare m m Eq) with (Pos.compare m m).
  rewrite Z.compare_refl, Pos.compare_refl. destruct s; reflexivity.
Qed.

(** [e == Num(z)] holds for a number leaf only. *)
Lemma is_num_true (e : expr) (z : Z) :
  is_num e z = Ok true ->
  exists n f, e = Num n /\ py_float n = Ok f /\
              is_infinity (float_of_Z z) = false /\
              SFeqb f (float_of_Z z) = true.
Proof.
  unfold is_num. destruct e as [name|n|cls l r]; simpl; try discriminate.
  unbind. destruct (py_float n) as [f|] eqn:Hn; try discriminate.
  destruct (is_infinity (float_of_Z z)); try discriminate.
  intros [= H]. exists n, f. auto.
Qed.

(** A comparison with [Num(z)] that raises comes from a conversion to
    float, of a number leaf. *)
Lemma is_num_raise (e : expr) (z : Z) (x : exn) :
  is_num e z = Raise x -> arithmetic_error x.
Proof.
  unfold is_num, arithmetic_error.
  destruct e as [name|n|cls l r]; simpl; try discriminate. unbind.
  destruct n as [k|f|re im]; simpl.
  - destruct (is_infinity (float_of_Z k)); [intros [= <-]; auto|].
    destruct (is_infinity (float_of_Z z)); [intros [= <-]; auto|discriminate].
  - destruct (is_infinity (float_of_Z z)); [intros [= <-]; auto|discriminate].
  - intros [= <-]; auto.
Qed.

Arguments float_of_Z : simpl never.
Arguments SFeqb : simpl never.
Arguments SFltb : simpl never.
Arguments SFadd : simpl never.
Arguments SFsub : simpl never.
Arguments SFmul : simpl never.
Arguments SFdiv : simpl never.

Lemma float_of_Z_0 : float_of_Z 0 = fzero.
Proof. reflexivity. Qed.

Lemma float_of_Z_1 : float_of_Z 1 = fone.
Proof. vm_compute. reflexivity. Qed.

(** There are platforms: the statements about every platform are not
    empty. *)
Lemma platform_inhabited : inhabited Platform.
Proof.
  constructor.
  refine {| float_pow_rest := fun _ _ => Raise OverflowError;
            complex_arith := fun _ _ _ => Raise OverflowError;
            float_repr := fun _ => EmptyString;
            complex_repr := fun _ _ => EmptyString |};
    intros; right; left; congruence.
Qed.

(** ** Arithmetic raises arithmetic errors only *)

Section ArithmeticErrors.
Context {pf : Platform}.

Lemma py_float_raises (n : pynum) (x : exn) :
  py_float n = Raise x -> arithmetic_error x.
Proof.
  unfold arithmetic_error. destruct n as [z|f|re im]; simpl.
  - destruct (is_infinity (float_of_Z z)); [intros [= <-]; auto|discriminate].
  - discriminate.
  - intros [= <-]; auto.
Qed.

Lemma float_pow_raises (a b : pyfloat) (x : exn) :
  float_pow a b = Raise x -> arithmetic_error x.
Proof.
  unfold float_pow.
  destruct (SFeqb a fzero && SFltb b fzero && negb (is_infinity b)).
  - intros [= <-]. left. reflexivity.
  - apply float_pow_rest_raises.
Qed.

Lemma float_arith_raises (o : opclass) (a b : pyfloat) (x : exn) :
  float_arith o a b = Raise x -> arithmetic_error x.
Proof.
  destruct o; simpl; try discriminate.
  - unfold float_div. destruct (SFeqb b fzero); [|discriminate].
    intros [= <-]. left. reflexivity.
  - apply float_pow_raises.
Qed.

Lemma int_arith_raises (o : opclass) (a b : Z) (x : exn) :
  int_arith o a b = Raise x -> arithmetic_error x.
Proof.
  destruct o; simpl; try discriminate.
  - unfold int_truediv. destruct b, a; try discriminate;
      try (intros [= <-]; left; reflexivity);
      match goal with |- context [is_infinity ?q] => destruct (is_infinity q) end;
      try discriminate; intros [= <-]; right; left; reflexivity.
  - unfold int_pow. destruct (0 <=? b); [discriminate|]. unbind.
    destruct (py_float (PyInt a)) eqn:Ha; [|intros [= <-]; eauto using py_float_raises].
    destruct (py_float (PyInt b)) eqn:Hb; [|intros [= <-]; eauto using py_float_raises].
    apply float_pow_raises.
Qed.

Lemma py_arith_raises (o : opclass) (a b : pynum) (x : exn) :
  py_arith o a b = Raise x -> arithmetic_error x.
Proof.
  unfold py_arith.
  destruct a as [za|fa|ra ia], b as [zb|fb|rb ib];
    try apply complex_arith_raises; try apply int_arith_raises; unbind;
    repeat match goal with
      | |- context [py_float ?n] =>
          let H := fresh in
          destruct (py_float n) eqn:H;
          [|intros [= <-]; eauto using py_float_raises]
      end;
    apply float_arith_raises.
Qed.

Lemma py_gt0_raises (n : pynum) (x : exn) :
  py_gt0 n = Raise x -> arithmetic_error x.
Proof.
  destruct n; simpl; try discriminate. intros [= <-].
  right. right. left. reflexivity.
Qed.
End ArithmeticErrors.

(** ** [simplify] *)

Section SimplifyFacts.
Context {pf : Platform}.

Lemma fold_or_rebuild_shape (cls : opclass) (sl sr s : expr) :
  fold_or_rebuild cls sl sr = Ok s ->
  (exists n, s = Num n) \/ s = BinOp cls sl sr.
Proof.
  unfold fold_or_rebuild. destruct sl as [a|a|c a1 a2], sr as [b|b|d b1 b2];
    try (intros [= <-]; right; reflexivity).
  unbind. destruct (py_arith cls a b); [|discriminate].
  intros [= <-]. left. eauto.
Qed.

(** What [simplify] returns at a binary operation: a simplified child, a
    number, or the node rebuilt over the simplified children. *)
Lemma simplify_shape (cls : opclass) (l r s : expr) :
  simplify (BinOp cls l r) = Ok s ->
  exists sl sr, simplify l = Ok sl /\ simplify r = Ok sr /\
    (s = sl \/ s = sr \/ (exists n, s = Num n) \/ s = BinOp cls sl sr).
Proof.
  destruct cls; simpl; unbind;
    destruct (simplify l) as [sl|]; try discriminate;
    destruct (simplify r) as [sr|]; try discriminate;
    intros H; exists sl, sr; (split; [reflexivity|split; [reflexivity|]]);
    revert H; unfold py_and, py_or, pow_zero_base; unbind;
    repeat (case_scrutinee; try discriminate);
    try (intros [= <-]; eauto 6);
    intros H; apply fold_or_rebuild_shape in H; tauto.
Qed.

(** C8: whenever [simplify] returns, the result has at most as many nodes
    as the tree it was given. *)
Theorem simplify_node_count (e s : expr) :
  simplify e = Ok s -> (node_count s <= node_count e)%nat.
Proof.
  revert s. induction e as [name|n|cls l IHl r IHr]; intros s H.
  - injection H as <-. reflexivity.
  - injection H as <-. reflexivity.
  - apply simplify_shape in H as (sl & sr & Hl & Hr & Hs).
    specialize (IHl _ Hl). specialize (IHr _ Hr).
    destruct Hs as [-> | [-> | [[n ->] | ->]]]; simpl; lia.
Qed.

(** C7: once the left operand of a [Div] simplifies to something equal to
    [Num(0)], the whole division simplifies to [Num(0)], whatever the right
    operand simplifies to. *)
Theorem div_simplify_zero_left (l r sl sr : expr) :
  simplify l = Ok sl -> simplify r = Ok sr ->
  expr_eq sl (Num (PyInt 0)) = Ok true ->
  simplify (BinOp Div l r) = Ok (Num (PyInt 0)).
Proof.
  intros Hl Hr H0. simpl. rewrite Hl, Hr. unbind.
  unfold is_num. rewrite H0. reflexivity.
Qed.

(** [simplify] raises arithmetic errors only: they come from a constant
    fold or from a conversion to float inside a comparison. *)
Lemma fold_or_rebuild_raises (cls : opclass) (sl sr : expr) (x : exn) :
  fold_or_rebuild cls sl sr = Raise x -> arithmetic_error x.
Proof.
  unfold fold_or_rebuild. destruct sl as [a|a|c a1 a2], sr as [b|b|d b1 b2];
    try discriminate.
  unbind. destruct (py_arith cls a b) eqn:H; [discriminate|].
  intros [= <-]. eauto using py_arith_raises.
Qed.

Lemma simplify_raises (e : expr) (x : exn) :
  simplify e = Raise x -> arithmetic_error x.
Proof.
  induction e as [name|n|cls l IHl r IHr]; try discriminate.
  destruct cls; simpl; unbind;
    (destruct (simplify l) as [sl|xl]; [|intros [= <-]; auto]);
    (destruct (simplify r) as [sr|xr]; [|intros [= <-]; auto]);
    unfold py_and, py_or, pow_zero_base; unbind;
    repeat (match goal with
            | |- context [is_num ?a ?z] =>
                let H := fresh in
                destruct (is_num a z) as [[]|] eqn:H;
                [| |intros [= <-]; eauto using is_num_raise]
            | |- context [py_gt0 ?n] =>
                let H := fresh in
                destruct (py_gt0 n) as [[]|] eqn:H;
                [| |intros [= <-]; eauto using py_gt0_raises]
            | |- context [match ?c with _ => _ end] =>
                is_var c; destruct c
            end; try discriminate);
    try apply fold_or_rebuild_raises.
Qed.
End SimplifyFacts.

(** ** Where [simplify] cannot fail

    On trees as the parser builds them (every number a float) that hold no
    [Div] and no [Pow], no fold and no comparison raises. *)

Lemma float_leaves_weaken (e : expr) :
  float_leaves e = true -> float_or_zero_leaves e = true.
Proof.
  induction e as [name|[z|f|re im]|cls l IHl r IHr]; simpl; try congruence.
  rewrite !andb_true_iff. tauto.
Qed.

Section SimplifyTotal.
Context {pf : Platform}.

Ltac float_steps :=
  repeat (simpl; unbind; rewrite ?float_of_Z_0, ?float_of_Z_1;
          try case_scrutinee).

Lemma simplify_float_or_zero (e : expr) :
  no_div_pow e = true -> float_or_zero_leaves e = true ->
  exists s, simplify e = Ok s /\ float_or_zero_leaves s = true.
Proof.
  induction e as [name|n|cls l IHl r IHr]; intros Hc Ht.
  - eauto.
  - eauto.
  - assert (no_div_pow l = true /\ no_div_pow r = true) as [Hcl Hcr]
      by (destruct cls; simpl in Hc; try discriminate;
          apply andb_true_iff in Hc; exact Hc).
    simpl in Ht. apply andb_true_iff in Ht as [Htl Htr].
    destruct (IHl Hcl Htl) as (sl & Hl & Hsl).
    destruct (IHr Hcr Htr) as (sr & Hr & Hsr).
    destruct cls; try discriminate; simpl; rewrite Hl, Hr;
      unfold py_and, py_or, is_num, fold_or_rebuild;
      destruct sl as [a|[[|p|p]|fa|ra ia]|c a1 a2]; try discriminate;
      destruct sr as [b|[[|q|q]|fb|rb ib]|d b1 b2]; try discriminate;
      float_steps;
      try (eexists; split; [reflexivity|]; simpl; simpl in Hsl, Hsr;
           rewrite ?Hsl, ?Hsr; reflexivity).
Qed.
End SimplifyTotal.

Section SimplifyTotality.
Context {pf : Platform}.

Lemma simplify_div_one_zero :
  simplify (BinOp Div (Num (PyInt 1)) (Num (PyInt 0))) = Raise ZeroDivisionError.
Proof. reflexivity. Qed.

Lemma simplify_pow_zero_negative :
  simplify (BinOp Pow (Num (PyInt 0)) (Num (PyInt (-2))))
  = Raise ZeroDivisionError.
Proof. reflexivity. Qed.

(** C2, amended: [simplify] returns a tree unless a constant fold or a
    comparison raises an arithmetic error, which [Div(Num(1), Num(0))] and
    [Pow(Num(0), Num(-2))] do; on a tree without [Div] and [Pow] whose
    numbers are floats it always returns a tree. *)
Theorem simplify_total_up_to_arithmetic (e : expr) :
  (succeeds (simplify e) \/
   exists x, simplify e = Raise x /\ arithmetic_error x) /\
  (no_div_pow e = true -> float_leaves e = true -> succeeds (simplify e)) /\
  simplify (BinOp Div (Num (PyInt 1)) (Num (PyInt 0)))
    = Raise ZeroDivisionError /\
  simplify (BinOp Pow (Num (PyInt 0)) (Num (PyInt (-2))))
    = Raise ZeroDivisionError.
Proof.
  split; [|split; [|split]].
  - destruct (simplify e) as [s|x] eqn:H.
    + left. exists s. reflexivity.
    + right. exists x. split; [reflexivity|]. exact (simplify_raises e x H).
  - intros Hc Hf.
    destruct (simplify_float_or_zero e Hc (float_leaves_weaken e Hf))
      as (s & Hs & _).
    exists s. exact Hs.
  - exact simplify_div_one_zero.
  - exact simplify_pow_zero_negative.
Qed.
End SimplifyTotality.

(** C2, as stated, fails: the fold of [Div(Num(1), Num(0))] divides by zero
    and [simplify] raises [ZeroDivisionError]. *)
Lemma simplify_not_total :
  on_every_platform (fun pf =>
    ~ succeeds (simplify (BinOp Div (Num (PyInt 1)) (Num (PyInt 0))))).
Proof.
  intros pf [s Hs]. rewrite simplify_div_one_zero in Hs. discriminate.
Qed.

(** C7 at [Div(Num(0), Num(0))]: both operands simplify to themselves. *)
Lemma div_simplify_zero_left_witness :
  on_every_platform (fun pf =>
    simplify (BinOp Div (Num (PyInt 0)) (Num (PyInt 0))) = Ok (Num (PyInt 0))).
Proof.
  intros pf.
  apply (div_simplify_zero_left (Num (PyInt 0)) (Num (PyInt 0))
           (Num (PyInt 0)) (Num (PyInt 0))); reflexivity.
Defined.

(** C8 at [Mul(Add(x, 0), 1)], which simplifies to [x]. *)
Lemma simplify_node_count_witness :
  on_every_platform (fun pf =>
    (node_count (Var "x") <=
     node_count (BinOp Mul (BinOp Add (Var "x") (Num (PyInt 0)))
                           (Num (PyInt 1))))%nat).
Proof.
  intros pf.
  apply (simplify_node_count
           (BinOp Mul (BinOp Add (Var "x") (Num (PyInt 0))) (Num (PyInt 1)))
           (Var "x")).
  vm_compute. reflexivity.
Defined.

(** ** [deriv] *)

(** C9: the derivative of a [Pow] is built by the power rule for a constant
    exponent, whether or not the exponent mentions [wrt]. *)
Theorem deriv_pow (l r : expr) (wrt : string) :
  deriv (BinOp Pow l r) wrt =
  BinOp Mul (BinOp Mul r (BinOp Pow l (BinOp Sub r (Num (PyInt 1)))))
            (deriv l wrt).
Proof. reflexivity. Qed.

(** ** [eval] *)

Section EvalFacts.
Context {pf : Platform}.

Lemma eval_div_one_zero :
  eval (BinOp Div (Num (PyInt 1)) (Num (PyInt 0))) ∅ = Raise ZeroDivisionError.
Proof. reflexivity. Qed.

(** A binary operation never evaluates to [None]. *)
Lemma eval_binop_not_none (cls : opclass) (l r : expr)
    (assignments : gmap string pynum) :
  eval (BinOp cls l r) assignments <> Ok None.
Proof.
  simpl. unbind.
  destruct (eval l assignments) as [[a|]|]; try discriminate;
    destruct (eval r assignments) as [[b|]|]; try discriminate.
  destruct (py_arith cls a b); discriminate.
Qed.

(** C3, amended: when the bindings cover the variables of [e], [eval]
    neither returns [None] nor raises [NameError]: it returns a number or
    raises an arithmetic error.  Division by zero is such an error, not an
    infinity: [Div(Num(1), Num(0))] raises [ZeroDivisionError]. *)
Theorem eval_bound_total_up_to_arithmetic (e : expr)
    (assignments : gmap string pynum) :
  vars e ⊆ dom assignments ->
  ((exists v, eval e assignments = Ok (Some v)) \/
   (exists x, eval e assignments = Raise x /\ arithmetic_error x)) /\
  eval (BinOp Div (Num (PyInt 1)) (Num (PyInt 0))) ∅ = Raise ZeroDivisionError.
Proof.
  intros Hb. split; [|exact eval_div_one_zero].
  induction e as [name|n|cls l IHl r IHr].
  - left. simpl in *.
    assert (name ∈ dom assignments) as Hin by set_solver.
    apply elem_of_dom in Hin as [v Hv]. exists v. rewrite Hv. reflexivity.
  - simpl. unbind. destruct (py_float n) as [f|x] eqn:Hn.
    + left. eauto.
    + right. exists x. eauto using py_float_raises.
  - simpl in Hb. apply union_subseteq in Hb as [Hl Hr].
    simpl. unbind.
    destruct (IHl Hl) as [[a ->]|(x & -> & Hx)]; [|right; eauto].
    destruct (IHr Hr) as [[b ->]|(x & -> & Hx)]; [|right; eauto].
    destruct (py_arith cls a b) as [v|x] eqn:Hv.
    + left. eauto.
    + right. exists x. eauto using py_arith_raises.
Qed.

(** Whatever [eval] raises is a [NameError] or an arithmetic error. *)
Lemma eval_raises (e : expr) (assignments : gmap string pynum) (x : exn) :
  eval e assignments = Raise x -> x = NameError \/ arithmetic_error x.
Proof.
  revert x. induction e as [name|n|cls l IHl r IHr]; intros x; simpl; unbind.
  - discriminate.
  - destruct (py_float n) eqn:Hn; [discriminate|].
    intros [= <-]. right. eauto using py_float_raises.
  - destruct (eval l assignments) as [lv|]; [|intros [= <-]; auto].
    destruct (eval r assignments) as [rv|]; [|intros [= <-]; auto].
    destruct lv as [a|], rv as [b|]; try (intros [= <-]; left; reflexivity).
    destruct (py_arith cls a b) eqn:Hv; [discriminate|].
    intros [= <-]. right. eauto using py_arith_raises.
Qed.

(** A tree with a variable that the bindings lack never evaluates to a
    number: a bare variable gives [None], and a binary operation raises,
    [NameError] unless an arithmetic error comes first. *)
Lemma eval_unbound (e : expr) (assignments : gmap string pynum) :
  ~ vars e ⊆ dom assignments ->
  (is_binop e = false /\ eval e assignments = Ok None) \/
  (exists x, eval e assignments = Raise x /\
             (x = NameError \/ arithmetic_error x)).
Proof.
  induction e as [name|n|cls l IHl r IHr]; intros Hu.
  - left. split; [reflexivity|]. simpl.
    destruct (assignments !! name) as [v|] eqn:Hv; [|reflexivity].
    exfalso. apply Hu. simpl. apply singleton_subseteq_l, elem_of_dom. eauto.
  - exfalso. apply Hu. simpl. apply empty_subseteq.
  - right.
    destruct (eval (BinOp cls l r) assignments) as [[v|]|x] eqn:He.
    + exfalso. simpl in He. unbind.
      destruct (eval l assignments) as [[a|]|] eqn:Hl; try discriminate;
        destruct (eval r assignments) as [[b|]|] eqn:Hr; try discriminate.
      destruct (decide (vars l ⊆ dom assignments)) as [Hsl|Hnl].
      * destruct (decide (vars r ⊆ dom assignments)) as [Hsr|Hnr].
        -- apply Hu. simpl. apply union_subseteq. auto.
        -- destruct (IHr Hnr) as [[_ H]|(y & H & _)]; congruence.
      * destruct (IHl Hnl) as [[_ H]|(y & H & _)]; congruence.
    + exfalso. exact (eval_binop_not_none cls l r assignments He).
    + exists x. split; [reflexivity|]. exact (eval_raises _ _ _ He).
Qed.

(** C4 at its failing input: a bare variable that the bindings lack
    evaluates to [None]; nothing is raised. *)
Theorem eval_unbound_var_returns_none :
  eval (Var "x") ∅ = Ok None.
Proof. reflexivity. Qed.

(** Under a binary operation the same variable does raise [NameError]. *)
Lemma eval_unbound_var_under_binop :
  eval (BinOp Add (Var "x") (Num (PyInt 1))) ∅ = Raise NameError.
Proof. reflexivity. Qed.

(** An arithmetic error in the other operand comes first. *)
Lemma eval_unbound_var_beside_zero_division :
  eval (BinOp Add (Var "x") (BinOp Div (Num (PyInt 1)) (Num (PyInt 0)))) ∅
  = Raise ZeroDivisionError.
Proof. reflexivity. Qed.
End EvalFacts.

(** C3, as stated, fails: [Div(Num(1), Num(0))] has no variable, and its
    evaluation raises [ZeroDivisionError] instead of returning a float. *)
Lemma eval_division_by_zero_raises :
  on_every_platform (fun pf =>
    vars (BinOp Div (Num (PyInt 1)) (Num (PyInt 0))) ⊆ dom (∅ : gmap string pynum)
    /\ eval (BinOp Div (Num (PyInt 1)) (Num (PyInt 0))) ∅
       = Raise ZeroDivisionError).
Proof. intros pf. split; [set_solver|reflexivity]. Qed.

(** C3, amended, at [Mul(Num(2), x)] with [x] bound. *)
Lemma eval_bound_total_witness :
  on_every_platform (fun pf =>
    ((exists v, eval (BinOp Mul (Num (PyInt 2)) (Var "x"))
                  {[ "x" := PyFloat fone ]} = Ok (Some v)) \/
     (exists x, eval (BinOp Mul (Num (PyInt 2)) (Var "x"))
                  {[ "x" := PyFloat fone ]} = Raise x /\ arithmetic_error x)) /\
    eval (BinOp Div (Num (PyInt 1)) (Num (PyInt 0))) ∅
      = Raise ZeroDivisionError).
Proof.
  intros pf.
  apply (eval_bound_total_up_to_arithmetic
           (BinOp Mul (Num (PyInt 2)) (Var "x")) {[ "x" := PyFloat fone ]}).
  simpl. rewrite dom_singleton_L. set_solver.
Defined.

(** ** Identity elements *)

Section IdentityElements.
Context {pf : Platform}.

Lemma is_num_succeeds_any (s : expr) (z z' : Z) :
  succeeds (is_num s z) -> is_infinity (float_of_Z z') = false ->
  succeeds (is_num s z').
Proof.
  unfold is_num. destruct s as [name|n|cls l r]; simpl;
    try (intros _ _; eexists; reflexivity).
  unbind. intros [b Hb] Hz'. destruct (py_float n) as [f|]; [|discriminate].
  rewrite Hz'. eexists; reflexivity.
Qed.

Lemma num_eq_of_is_num (s : expr) (z : Z) (m : pynum) :
  is_num s z = Ok true -> py_float m = Ok (float_of_Z z) ->
  expr_eq (Num m) s = Ok true.
Proof.
  intros H Hm. apply is_num_true in H as (n & f & -> & Hn & _ & Hf).
  simpl. unbind. rewrite Hm, Hn, SFeqb_sym, Hf. reflexivity.
Qed.

(** C6, amended: when [simplify e] returns [s], [Pow(e, Num(0))]
    simplifies to [Num(1)]; and when moreover [s] is not a number that
    [float] rejects, [Mul(e, Num(1))] and [Add(e, Num(0))] simplify to [s]
    or to a tree equal to it.  [Pow.simplify] never compares the base, so
    its part needs no condition on [s].  The literals are the ints [0] and
    [1] or the floats [0.0] and [1.0]. *)
Theorem simplify_identity_elements (e s : expr) (zero one : pynum) :
  simplify e = Ok s ->
  zero = PyInt 0 \/ zero = PyFloat fzero ->
  one = PyInt 1 \/ one = PyFloat fone ->
  simplify (BinOp Pow e (Num zero)) = Ok (Num (PyInt 1)) /\
  (succeeds (is_num s 0) ->
   same_or_equal (simplify (BinOp Mul e (Num one))) s /\
   same_or_equal (simplify (BinOp Add e (Num zero))) s).
Proof.
  intros He Hzero Hone.
  assert (is_num (Num zero) 0 = Ok true) as Hz0
    by (destruct Hzero as [-> | ->]; reflexivity).
  assert (is_num (Num one) 0 = Ok false) as Ho0
    by (destruct Hone as [-> | ->]; vm_compute; reflexivity).
  assert (is_num (Num one) 1 = Ok true) as Ho1
    by (destruct Hone as [-> | ->]; vm_compute; reflexivity).
  assert (py_float one = Ok (float_of_Z 1)) as Hfo
    by (destruct Hone as [-> | ->]; vm_compute; reflexivity).
  split; [simpl; rewrite He; unbind; rewrite Hz0; reflexivity|].
  intros Hs0.
  destruct (is_num_succeeds_any s 0 1 Hs0 eq_refl) as [b1 Hs1].
  destruct Hs0 as [b0 Hs0].
  split.
  - unfold same_or_equal. simpl. rewrite He. unfold py_or. unbind.
    rewrite Hs0. destruct b0.
    + eexists. split; [reflexivity|]. right.
      exact (num_eq_of_is_num s 0 (PyInt 0) Hs0 eq_refl).
    + rewrite Ho0, Hs1. destruct b1.
      * eexists. split; [reflexivity|]. right.
        exact (num_eq_of_is_num s 1 one Hs1 Hfo).
      * rewrite Ho1. eexists. split; [reflexivity|]. left. reflexivity.
  - unfold same_or_equal. simpl. rewrite He. unfold py_and. unbind.
    rewrite Hs0. destruct b0.
    + rewrite Hz0. eexists. split; [reflexivity|]. right.
      exact (num_eq_of_is_num s 0 (PyInt 0) Hs0 eq_refl).
    + rewrite Hz0. eexists. split; [reflexivity|]. left. reflexivity.
Qed.

(** Without the first hypothesis: [simplify] works on the children first,
    so a base whose own simplification raises makes [Pow(e, Num(0))]
    raise. *)
Lemma simplify_pow_zero_of_failing_base :
  simplify (BinOp Pow (BinOp Div (Num (PyInt 1)) (Num (PyInt 0)))
                      (Num (PyInt 0)))
  = Raise ZeroDivisionError.
Proof. reflexivity. Qed.

(** Without the condition on [s]: [Num(2**1024)] simplifies to itself, and
    beside a [1] its comparison with [Num(0)] raises [OverflowError]. *)
Lemma simplify_mul_one_of_huge_int :
  simplify (Num (PyInt (2 ^ 1024))) = Ok (Num (PyInt (2 ^ 1024))) /\
  simplify (BinOp Mul (Num (PyInt (2 ^ 1024))) (Num (PyInt 1)))
  = Raise OverflowError.
Proof. split; [reflexivity|vm_compute; reflexivity]. Qed.

(** A tree that holds a NaN is returned as it is, and is not equal to
    itself. *)
Lemma simplify_add_zero_of_nan :
  simplify (BinOp Add (Num (PyFloat S754_nan)) (Num (PyInt 0)))
  = Ok (Num (PyFloat S754_nan)) /\
  expr_eq (Num (PyFloat S754_nan)) (Num (PyFloat S754_nan)) = Ok false.
Proof. split; vm_compute; reflexivity. Qed.
End IdentityElements.

(** C6, as stated, fails: with [e = Div(Num(1), Num(0))] the tree
    [Pow(e, Num(0))] does not simplify to [Num(1)], it raises. *)
Lemma simplify_pow_zero_not_always_one :
  on_every_platform (fun pf =>
    simplify (BinOp Pow (BinOp Div (Num (PyInt 1)) (Num (PyInt 0)))
                        (Num (PyInt 0)))
    <> Ok (Num (PyInt 1))).
Proof. intros pf. rewrite simplify_pow_zero_of_failing_base. discriminate. Qed.

(** C6, amended, at [e = Add(x, Num(0))], which simplifies to [x]. *)
Lemma simplify_identity_elements_witness :
  on_every_platform (fun pf =>
    simplify (BinOp Pow (BinOp Add (Var "x") (Num (PyInt 0))) (Num (PyInt 0)))
      = Ok (Num (PyInt 1)) /\
    same_or_equal
      (simplify (BinOp Mul (BinOp Add (Var "x") (Num (PyInt 0)))
                           (Num (PyInt 1)))) (Var "x") /\
    same_or_equal
      (simplify (BinOp Add (BinOp Add (Var "x") (Num (PyInt 0)))
                           (Num (PyInt 0)))) (Var "x")).
Proof.
  intros pf.
  destruct (simplify_identity_elements (BinOp Add (Var "x") (Num (PyInt 0)))
              (Var "x") (PyInt 0) (PyInt 1) eq_refl
              (or_introl eq_refl) (or_introl eq_refl)) as [Hpow Hrest].
  split; [exact Hpow|].
  apply Hrest. exists false. reflexivity.
Defined.

(** ** [parse] *)

Lemma py_index_middle {A} (before after : list A) (x : A) :
  py_index (before ++ x :: after) (Z.of_nat (length before)) = Ok x.
Proof.
  unfold py_index.
  destruct (Z.ltb_spec (Z.of_nat (length before)) 0) as [H|_]; [lia|].
  rewrite length_app. simpl length.
  destruct (Z.ltb_spec (Z.of_nat (length before)) 0) as [H|_]; [lia|].
  destruct (Z.leb_spec (Z.of_nat (length before + S (length after)))
              (Z.of_nat (length before))) as [H|_]; [lia|].
  simpl. rewrite Nat2Z.id.
  rewrite (list_lookup_middle before after x (length before) eq_refl).
  reflexivity.
Qed.

Lemma isalpha_char_not_number (c : ascii) :
  isalpha_char c = true ->
  Ascii.eqb c "-" || isdigit c || Ascii.eqb c "." = false.
Proof.
  destruct c as [[] [] [] [] [] [] [] []]; vm_compute; congruence.
Qed.

Lemma isalpha_not_number (token : string) :
  isalpha token = true -> starts_number token = Ok false.
Proof.
  destruct token as [|c rest]; [discriminate|].
  unfold isalpha, starts_number. simpl. intros H.
  apply andb_true_iff in H as [Hc _].
  rewrite (isalpha_char_not_number c Hc). reflexivity.
Qed.

(** [parse_expression] on a sequence that forms a tree, wherever it starts
    in the token list and whatever follows it. *)
Lemma parse_expression_forms (pre : list string) (e : expr) :
  forms pre e ->
  forall (fuel : nat) (before rest : list string),
    (length pre <= fuel)%nat ->
    parse_expression fuel (before ++ pre ++ rest) (length before)
    = Some (Ok (Some (e, (length before + length pre)%nat))).
Proof.
  induction 1 as [token f Hs Hf|token Ha|operator cls tl tr l r Hc Hl IHl Hr IHr];
    intros fuel before rest Hfuel.
  - destruct fuel as [|fuel]; [simpl in Hfuel; lia|].
    simpl. rewrite py_index_middle, Hs, Hf. simpl.
    replace (length before + 1)%nat with (S (length before)) by lia.
    reflexivity.
  - destruct fuel as [|fuel]; [simpl in Hfuel; lia|].
    simpl. rewrite py_index_middle, (isalpha_not_number token Ha), Ha.
    replace (length before + 1)%nat with (S (length before)) by lia.
    reflexivity.
  - destruct fuel as [|fuel]; [simpl in Hfuel; lia|].
    simpl in Hfuel. rewrite length_app in Hfuel. simpl in Hfuel.
    cbn [parse_expression].
    change (("(" :: tl ++ operator :: tr) ++ rest)
      with ("(" :: (tl ++ operator :: tr) ++ rest).
    rewrite py_index_middle.
    change (starts_number "(") with (@Ok bool false).
    change (isalpha "(") with false.
    change (String.eqb "(" "(") with true. cbv iota.
    assert (before ++ "(" :: (tl ++ operator :: tr) ++ rest
            = (before ++ ["("]) ++ tl ++ (operator :: tr ++ rest)) as E1
      by (rewrite <- !app_assoc; reflexivity).
    assert (S (length before) = length (before ++ ["("])) as E2
      by (rewrite length_app; simpl; lia).
    rewrite E1, E2, (IHl fuel (before ++ ["("]) _) by lia.
    cbn [unpack].
    assert ((before ++ ["("]) ++ tl ++ operator :: tr ++ rest
            = ((before ++ ["("]) ++ tl) ++ operator :: tr ++ rest) as E3
      by (rewrite <- !app_assoc; reflexivity).
    assert ((length (before ++ ["("]) + length tl)%nat
            = length ((before ++ ["("]) ++ tl)) as E4
      by (rewrite !length_app; reflexivity).
    rewrite E4. rewrite E3 at 1. rewrite py_index_middle.
    assert ((before ++ ["("]) ++ tl ++ operator :: tr ++ rest
            = (((before ++ ["("]) ++ tl) ++ [operator]) ++ tr ++ rest) as E5
      by (rewrite <- !app_assoc; reflexivity).
    assert (S (length ((before ++ ["("]) ++ tl))
            = length ((((before ++ ["("]) ++ tl) ++ [operator]))) as E6
      by (rewrite !length_app; simpl; lia).
    rewrite E5, E6, (IHr fuel _ _) by lia.
    cbn [unpack]. unbind. rewrite Hc.
    replace (length (((before ++ ["("]) ++ tl) ++ [operator]) + length tr)%nat
      with (length before + length ("(" :: tl ++ operator :: tr))%nat
      by (simpl; rewrite !length_app; simpl; lia).
    reflexivity.
Qed.

Lemma parse_single_token (token : string) (e : expr) :
  forms [token] e -> parse [token] = Some (Ok e).
Proof.
  intros H. unfold parse. cbn [length].
  pose proof (parse_expression_forms [token] e H 2 [] []) as Hp.
  cbn [app length Nat.add] in Hp. rewrite Hp; [reflexivity|lia].
Qed.

(** C10: when a prefix of the tokens forms a complete expression, [parse]
    returns the tree of that prefix and raises nothing, whatever tokens
    follow. *)
Theorem parse_ignores_trailing_tokens (pre rest : list string) (e : expr) :
  forms pre e -> parse (pre ++ rest) = Some (Ok e).
Proof.
  intros H. unfold parse.
  pose proof (parse_expression_forms pre e H (S (length (pre ++ rest))) [] rest)
    as Hp.
  cbn [app length Nat.add] in Hp. rewrite Hp; [reflexivity|].
  rewrite length_app. lia.
Qed.

(** C10 at the tokens of ["1 - 2"]: the result is [Num(1.0)], and [-] and
    [2] are dropped. *)
Lemma parse_ignores_trailing_tokens_witness :
  tokenize "1 - 2" = Ok (["1"] ++ ["-"; "2"]) /\
  parse (["1"] ++ ["-"; "2"]) = Some (Ok (Num (PyFloat fone))).
Proof.
  split; [reflexivity|].
  apply (parse_ignores_trailing_tokens ["1"] ["-"; "2"] (Num (PyFloat fone))).
  apply forms_number; vm_compute; reflexivity.
Defined.

(** The fuel [parse] gives is enough: the index grows with every nested
    call and stays below the number of tokens. *)
Lemma py_index_ok {A} (l : list A) (i : nat) (x : A) :
  py_index l (Z.of_nat i) = Ok x -> (i < length l)%nat.
Proof.
  unfold py_index.
  destruct (Z.ltb_spec (Z.of_nat i) 0) as [H|_]; [lia|].
  destruct (Z.ltb_spec (Z.of_nat i) 0) as [H|_]; [lia|].
  destruct (Z.leb_spec (Z.of_nat (length l)) (Z.of_nat i)) as [H|H];
    simpl; [discriminate|]. intros _. lia.
Qed.

Ltac split_parse H :=
  repeat match type of H with
    | context [match ?c with _ => _ end] =>
        lazymatch c with
        | context [match _ with _ => _ end] => fail
        | _ => destruct c eqn:?
        end; try discriminate
    end.

Lemma parse_expression_index (fuel : nat) :
  forall (tokens : list string) (index : nat) (e : expr) (next : nat),
    parse_expression fuel tokens index = Some (Ok (Some (e, next))) ->
    (index < next)%nat.
Proof.
  induction fuel as [|fuel IH]; intros tokens index e next H;
    [discriminate|].
  cbn [parse_expression] in H. unfold unpack in H. unbind.
  split_parse H; try (injection H as <- <-; lia).
  injection H as <- <-.
  repeat match goal with
    | Hp : parse_expression fuel _ _ = Some (Ok (Some _)) |- _ =>
        apply IH in Hp
    end.
  lia.
Qed.

Lemma parse_expression_fuel (fuel : nat) :
  forall (tokens : list string) (index : nat),
    (0 < fuel)%nat -> (length tokens < fuel + index)%nat ->
    parse_expression fuel tokens index <> None.
Proof.
  induction fuel as [|fuel IH]; intros tokens index Hpos Hlen; [lia|].
  cbn [parse_expression].
  destruct (py_index tokens (Z.of_nat index)) as [token|] eqn:Htok;
    [|discriminate].
  apply py_index_ok in Htok.
  destruct (starts_number token) as [[]|]; try discriminate.
  destruct (isalpha token); [discriminate|].
  destruct (String.eqb token "("); [|discriminate].
  destruct (parse_expression fuel tokens (S index)) as [[left_r|]|] eqn:Hl;
    try discriminate.
  - destruct left_r as [[left_exp opp_ind]|]; cbn [unpack]; [|discriminate].
    apply parse_expression_index in Hl.
    destruct (py_index tokens (Z.of_nat opp_ind)) as [operator|] eqn:Hop;
      [|discriminate].
    apply py_index_ok in Hop.
    destruct (parse_expression fuel tokens (S opp_ind)) as [[right_r|]|] eqn:Hr;
      try discriminate.
    exfalso. revert Hr. apply IH; lia.
  - exfalso. revert Hl. apply IH; lia.
Qed.

(** [parse] and [expression] always come to a result. *)
Lemma parse_terminates (tokens : list string) :
  exists r, parse tokens = Some r.
Proof.
  unfold parse.
  destruct (parse_expression (S (length tokens)) tokens 0) as [r|] eqn:H.
  - eexists. reflexivity.
  - exfalso. revert H. apply parse_expression_fuel; lia.
Qed.

Lemma expression_terminates (expression_str : string) :
  exists r, expression expression_str = Some r.
Proof.
  unfold expression.
  destruct (tokenize expression_str) as [tokenized_lst|]; [|eauto].
  destruct (expression_loop tokenized_lst tokenized_lst 0 []); [|eauto].
  apply parse_terminates.
Qed.

(** ** Scenario 6 of the specification *)

(** C5, amended: ["(2 * (5 + 3) ** 1)"] parses to
    [Mul(Num(2.0), Add(Num(5.0), Num(3.0)))]; the tokens [**] and [1]
    follow a complete expression and are dropped.  With the power in
    parentheses of its own the [Pow] node is built. *)
Theorem expression_scenario_6 :
  tokenize "(2 * (5 + 3) ** 1)"
    = Ok ["("; "2"; "*"; "("; "5"; "+"; "3"; "*"; "*"; "1"] /\
  expression "(2 * (5 + 3) ** 1)" = Some (Ok two_times_sum) /\
  expression "(2 * ((5 + 3) ** 1))" = Some (Ok two_times_sum_to_the_one).
Proof. repeat split; vm_compute; reflexivity. Qed.

(** C5, as stated, fails: the tree parsed from ["(2 * (5 + 3) ** 1)"] is
    not the tree with the [Pow] node, neither as a term nor under [==]. *)
Lemma expression_scenario_6_has_no_pow :
  expression "(2 * (5 + 3) ** 1)" <> Some (Ok two_times_sum_to_the_one) /\
  exists parsed, expression "(2 * (5 + 3) ** 1)" = Some (Ok parsed) /\
                 expr_eq parsed two_times_sum_to_the_one = Ok false.
Proof.
  split.
  - vm_compute. discriminate.
  - exists two_times_sum. split; vm_compute; reflexivity.
Qed.

(** ** Rendering and parsing back *)

(** *** Integer literals through [tokenize] and [float] *)

Lemma digit_char (c : ascii) :
  isdigit c = true ->
  Ascii.eqb c " " || Ascii.eqb c ")" = false /\
  Ascii.eqb c "." = false /\ Ascii.eqb c "-" = false /\
  Ascii.eqb c "*" = false /\ Ascii.eqb c "(" = false /\
  forall rest, split_sign (String c rest) = (false, String c rest).
Proof.
  destruct c as [[] [] [] [] [] [] [] []]; vm_compute; intuition congruence.
Qed.

Lemma append_nil (s : string) : "" +:+ s = s.
Proof. reflexivity. Qed.

Lemma append_cons (a : ascii) (s t : string) :
  String a s +:+ t = String a (s +:+ t).
Proof. reflexivity. Qed.

Lemma append_char (acc s : string) (c : ascii) :
  (acc +:+ char_token c) +:+ s = acc +:+ String c s.
Proof.
  unfold char_token. induction acc as [|a acc IH].
  - reflexivity.
  - rewrite !append_cons, IH. reflexivity.
Qed.

Lemma append_empty (s : string) : s +:+ "" = s.
Proof.
  induction s as [|a s IH]; [reflexivity|].
  rewrite append_cons, IH. reflexivity.
Qed.

Lemma tokenize_loop_digits (inp_str s rest : string) :
  all_chars isdigit s = true ->
  forall (i : nat) (tokenized : list string) (num_add : string),
    tokenize_loop inp_str (s +:+ rest) i tokenized num_add
    = tokenize_loop inp_str rest (i + String.length s) tokenized
        (num_add +:+ s).
Proof.
  induction s as [|c s IH]; intros H i tokenized num_add.
  - rewrite append_nil, append_empty. simpl. rewrite Nat.add_0_r.
    reflexivity.
  - simpl in H. apply andb_true_iff in H as [Hc Hs].
    destruct (digit_char c Hc) as (Hsp & _).
    rewrite append_cons. cbn [tokenize_loop]. rewrite Hsp.
    unfold extends_number. rewrite Hc. cbn [orb]. unbind.
    rewrite (IH Hs), append_char. f_equal. simpl. lia.
Qed.

Lemma tokenize_digits (s : string) :
  all_chars isdigit s = true -> s <> "" -> tokenize s = Ok [s].
Proof.
  intros Hs Hne. unfold tokenize.
  rewrite (tokenize_loop_digits s s "|" Hs). simpl. unbind.
  destruct s as [|c s]; [congruence|]. reflexivity.
Qed.

Lemma tokenize_minus_digits (s : string) :
  all_chars isdigit s = true -> s <> "" ->
  tokenize (String "-" s) = Ok [String "-" s].
Proof.
  intros Hs Hne. unfold tokenize.
  destruct s as [|c s]; [congruence|].
  assert (isdigit c = true) as Hc
    by (simpl in Hs; apply andb_true_iff in Hs; tauto).
  change (String "-" (String c s) +:+ "|")
    with (String "-" (String c s +:+ "|")).
  cbn [tokenize_loop]. change (Ascii.eqb "-" " " || Ascii.eqb "-" ")") with false.
  cbv iota. unfold extends_number at 1.
  change (isdigit "-" || Ascii.eqb "-" ".") with false.
  change (Ascii.eqb "-" "-") with true. cbv iota.
  change (str_index (String "-" (String c s)) 1) with (@Ok ascii c).
  unbind. rewrite Hc. cbn [orb].
  rewrite (tokenize_loop_digits _ (String c s) "|" Hs). reflexivity.
Qed.

Lemma string_of_uint_digits (d : Decimal.uint) :
  all_chars isdigit (NilEmpty.string_of_uint d) = true.
Proof. induction d; simpl; auto. Qed.

Lemma string_of_uint_nonempty (d : Decimal.uint) :
  d <> Decimal.Nil -> NilEmpty.string_of_uint d <> "".
Proof. destruct d; simpl; congruence. Qed.

Lemma split_point_digits (s : string) :
  all_chars isdigit s = true -> split_point s = (s, None).
Proof.
  induction s as [|c s IH]; [reflexivity|]. simpl. intros H.
  apply andb_true_iff in H as [Hc Hs].
  destruct (digit_char c Hc) as (_ & Hpt & _).
  rewrite Hpt, (IH Hs). reflexivity.
Qed.

Lemma decimal_literal_digits (neg : bool) (s body : string) (d : Decimal.uint) :
  split_sign s = (neg, body) -> body = NilEmpty.string_of_uint d ->
  d <> Decimal.Nil ->
  decimal_literal s = Some (neg, N.of_uint d, 0%nat).
Proof.
  intros Hsign -> Hd. unfold decimal_literal. rewrite Hsign.
  rewrite (split_point_digits _ (string_of_uint_digits d)). simpl.
  rewrite NilEmpty.usu.
  destruct (NilEmpty.string_of_uint d) eqn:E;
    [exfalso; revert E; apply string_of_uint_nonempty; exact Hd|].
  simpl. change (10 ^ N.of_nat 0)%N with 1%N.
  rewrite N.mul_1_r, N.add_0_r. reflexivity.
Qed.

Lemma split_sign_digits (d : Decimal.uint) :
  split_sign (NilEmpty.string_of_uint d) = (false, NilEmpty.string_of_uint d).
Proof.
  pose proof (string_of_uint_digits d) as Hd.
  destruct (NilEmpty.string_of_uint d) as [|c s]; [reflexivity|].
  simpl in Hd. apply andb_true_iff in Hd as [Hc _].
  destruct (digit_char c Hc) as (_ & _ & _ & _ & _ & Hsign). apply Hsign.
Qed.

(** [float(str(z))] is the float nearest to [z]. *)
Lemma py_float_of_string_int (z : Z) :
  py_float_of_string (NilZero.string_of_int (Z.to_int z)) = Ok (float_of_Z z).
Proof.
  destruct z as [|p|p]; [reflexivity| |];
    unfold py_float_of_string; simpl;
    pose proof (Unsigned.to_uint_nonnil p) as Hp;
    assert (NilZero.string_of_uint (Pos.to_uint p)
            = NilEmpty.string_of_uint (Pos.to_uint p)) as ->
      by (destruct (Pos.to_uint p) eqn:E; [congruence|reflexivity..]).
  - rewrite (decimal_literal_digits false _ _ (Pos.to_uint p)
               (split_sign_digits _) eq_refl Hp).
    unfold N.of_uint. rewrite DecimalPos.Unsigned.of_to. reflexivity.
  - rewrite (decimal_literal_digits true
               (String "-" (NilEmpty.string_of_uint (Pos.to_uint p)))
               (NilEmpty.string_of_uint (Pos.to_uint p)) (Pos.to_uint p)
               eq_refl eq_refl Hp).
    unfold N.of_uint. rewrite DecimalPos.Unsigned.of_to. reflexivity.
Qed.

Lemma int_literal_token (z : Z) :
  let s := NilZero.string_of_int (Z.to_int z) in
  tokenize s = Ok [s] /\ starts_number s = Ok true /\
  String.eqb s "*" = false.
Proof.
  destruct z as [|p|p]; [repeat split| |]; simpl;
    pose proof (Unsigned.to_uint_nonnil p) as Hp;
    assert (NilZero.string_of_uint (Pos.to_uint p)
            = NilEmpty.string_of_uint (Pos.to_uint p)) as ->
      by (destruct (Pos.to_uint p) eqn:E; [congruence|reflexivity..]);
    pose proof (string_of_uint_digits (Pos.to_uint p)) as Hd;
    pose proof (string_of_uint_nonempty _ Hp) as Hne.
  - split; [exact (tokenize_digits _ Hd Hne)|].
    destruct (NilEmpty.string_of_uint (Pos.to_uint p)) as [|c s];
      [congruence|].
    simpl in Hd. apply andb_true_iff in Hd as [Hc _].
    destruct (digit_char c Hc) as (_ & _ & _ & Hstar & _).
    unfold starts_number. simpl. rewrite Hc, Hstar, orb_true_r.
    split; reflexivity.
  - split; [exact (tokenize_minus_digits _ Hd Hne)|].
    split; reflexivity.
Qed.

(** Rendering an int leaf and parsing the text back gives the float
    nearest to the int. *)
Lemma expression_int_literal (z : Z) :
  expression (NilZero.string_of_int (Z.to_int z))
  = Some (Ok (Num (PyFloat (float_of_Z z)))).
Proof.
  destruct (int_literal_token z) as (Htok & Hstart & Hstar).
  unfold expression. rewrite Htok. simpl expression_loop. rewrite Hstar.
  simpl.
  apply parse_single_token.
  apply forms_number; [exact Hstart|apply py_float_of_string_int].
Qed.

(** A one-letter variable is its own token. *)
Lemma expression_letter (c : ascii) :
  isalpha_char c = true ->
  expression (String c "") = Some (Ok (Var (String c ""))).
Proof.
  destruct c as [[] [] [] [] [] [] [] []]; vm_compute; congruence.
Qed.

(** *** The float of an int is not a NaN *)

Lemma shr_1_nonneg (mrs : shr_record) :
  0 <= shr_m mrs -> 0 <= shr_m (shr_1 mrs).
Proof.
  destruct mrs as [m r s]. simpl.
  destruct m as [|[p|p|]|[p|p|]]; simpl; lia.
Qed.

Lemma iter_shr_1_nonneg (p : positive) :
  forall mrs, 0 <= shr_m mrs -> 0 <= shr_m (SpecFloat.iter_pos shr_1 p mrs).
Proof.
  induction p as [p IH|p IH|]; intros mrs H; simpl.
  - apply IH, IH, shr_1_nonneg, H.
  - apply IH, IH, H.
  - apply shr_1_nonneg, H.
Qed.

Lemma shr_fexp_nonneg (m e : Z) (l : location) :
  0 <= m -> 0 <= shr_m (fst (shr_fexp prec emax m e l)).
Proof.
  intros H. unfold shr_fexp, shr.
  assert (0 <= shr_m (shr_record_of_loc m l)) as H0
    by (destruct l as [|[]]; exact H).
  destruct (fexp prec emax (Zdigits2 m + e) - e); simpl; trivial.
  apply iter_shr_1_nonneg, H0.
Qed.

Lemma round_nearest_even_nonneg (m : Z) (l : location) :
  0 <= m -> 0 <= round_nearest_even m l.
Proof.
  intros H. destruct l as [|[]]; simpl; try lia.
  destruct (Z.even m); lia.
Qed.

Lemma binary_round_aux_not_nan (s : bool) (m e : Z) (l : location) :
  0 <= m -> is_nan (binary_round_aux prec emax s m e l) = false.
Proof.
  intros H. unfold binary_round_aux.
  pose proof (shr_fexp_nonneg m e l H) as H1.
  destruct (shr_fexp prec emax m e l) as [mrs' e'].
  simpl in H1.
  pose proof (shr_fexp_nonneg
                (round_nearest_even (shr_m mrs') (loc_of_shr_record mrs'))
                e' loc_Exact
                (round_nearest_even_nonneg _ _ H1)) as H2.
  destruct (shr_fexp prec emax
              (round_nearest_even (shr_m mrs') (loc_of_shr_record mrs'))
              e' loc_Exact) as [mrs'' e''].
  simpl in H2. destruct (shr_m mrs'') as [|q|q]; try reflexivity; [|lia].
  destruct (e'' <=? emax - prec); reflexivity.
Qed.

Lemma float_of_Z_not_nan (z : Z) : is_nan (float_of_Z z) = false.
Proof.
  unfold float_of_Z, binary_normalize, binary_round.
  destruct z as [|p|p]; [reflexivity| |];
    destruct (shl_align p 0 (fexp prec emax (Z.pos (digits2_pos p) + 0)));
    apply binary_round_aux_not_nan; lia.
Qed.

(** An int that [float] accepts equals its float. *)
Lemma int_eq_its_float (z : Z) (f : pyfloat) :
  py_float (PyInt z) = Ok f ->
  f = float_of_Z z /\ expr_eq (Num (PyFloat f)) (Num (PyInt z)) = Ok true.
Proof.
  intros H. assert (f = float_of_Z z) as ->
    by (simpl in H; destruct (is_infinity (float_of_Z z)); congruence).
  split; [reflexivity|]. cbn [expr_eq]. rewrite H. simpl. unbind.
  rewrite SFeqb_refl; [reflexivity|apply float_of_Z_not_nan].
Qed.

(** *** Opening parentheses from [render] to [parse]

    [render] writes at most one opening parenthesis per binary operation
    below the root and none for the root; [tokenize] and [expression] add
    none; [parse] builds one binary operation per ["("] token it reads. *)

Lemma count_open_chars_app (a b : string) :
  count_open_chars (a +:+ b) = (count_open_chars a + count_open_chars b)%nat.
Proof.
  induction a as [|c a IH]; [reflexivity|].
  rewrite append_cons. simpl. rewrite IH. lia.
Qed.

Lemma count_open_app (a b : list string) :
  count_open (a ++ b) = (count_open a + count_open b)%nat.
Proof. induction a as [|t a IH]; simpl; [reflexivity|]. rewrite IH. lia. Qed.

Lemma count_open_chars_all (p : ascii -> bool) (s : string) :
  (forall c, p c = true -> Ascii.eqb c "(" = false) ->
  all_chars p s = true -> count_open_chars s = 0%nat.
Proof.
  intros Hp. induction s as [|c s IH]; [reflexivity|]. simpl. intros H.
  apply andb_true_iff in H as [Hc Hs]. rewrite (Hp c Hc), (IH Hs).
  reflexivity.
Qed.

Lemma alpha_not_open (c : ascii) :
  isalpha_char c = true -> Ascii.eqb c "(" = false.
Proof. destruct c as [[] [] [] [] [] [] [] []]; vm_compute; congruence. Qed.

Lemma digit_not_open (c : ascii) : isdigit c = true -> Ascii.eqb c "(" = false.
Proof. intros H. apply (digit_char c H). Qed.

Lemma count_open_chars_int (z : Z) :
  count_open_chars (NilZero.string_of_int (Z.to_int z)) = 0%nat.
Proof.
  destruct z as [|p|p]; [reflexivity| |]; simpl;
    assert (NilZero.string_of_uint (Pos.to_uint p)
            = NilEmpty.string_of_uint (Pos.to_uint p)) as ->
      by (pose proof (Unsigned.to_uint_nonnil p);
          destruct (Pos.to_uint p) eqn:E; [congruence|reflexivity..]);
    apply (count_open_chars_all isdigit _ digit_not_open),
          string_of_uint_digits.
Qed.

Lemma no_open_not_paren (s : string) :
  count_open_chars s = 0%nat -> String.eqb s "(" = false.
Proof.
  destruct s as [|c s]; [reflexivity|]. simpl.
  destruct (Ascii.eqb c "(") eqn:E; [discriminate|]. reflexivity.
Qed.

Section RenderParens.
Context {pf : Platform}.

Lemma render_leaf_no_open (e : expr) :
  plain_leaves e = true -> is_binop e = false ->
  count_open_chars (render e) = 0%nat.
Proof.
  destruct e as [name|[z|f|re im]|cls l r]; simpl; try discriminate;
    intros H _.
  - destruct name as [|c s]; [discriminate|].
    exact (count_open_chars_all isalpha_char _ alpha_not_open H).
  - apply count_open_chars_int.
Qed.

Lemma count_open_chars_parenthesize (s : string) :
  count_open_chars (parenthesize s) = S (count_open_chars s).
Proof.
  unfold parenthesize. rewrite !count_open_chars_app. simpl. lia.
Qed.

Lemma count_open_chars_opp (cls : opclass) :
  count_open_chars (opp cls) = 0%nat.
Proof. destruct cls; reflexivity. Qed.

Lemma leaf_precedence (e : expr) (cls : opclass) :
  is_binop e = false -> (precedence e <=? class_precedence cls) = false.
Proof. destruct e, cls; simpl; try discriminate; reflexivity. Qed.

(** The opening parentheses of a rendering, with one more for a binary
    operation at the root, are no more than the binary operations. *)
Lemma render_open_parens (e : expr) :
  plain_leaves e = true ->
  (count_open_chars (render e) + (if is_binop e then 1 else 0)
   <= binop_count e)%nat.
Proof.
  induction e as [name|n|cls l IHl r IHr]; intros H.
  - rewrite (render_leaf_no_open (Var name) H eq_refl). simpl. lia.
  - rewrite (render_leaf_no_open (Num n) H eq_refl). simpl. lia.
  - simpl in H. apply andb_true_iff in H as [Hl Hr].
    specialize (IHl Hl). specialize (IHr Hr).
    cbn [render is_binop binop_count].
    rewrite !count_open_chars_app, count_open_chars_opp.
    change (count_open_chars " ") with 0%nat.
    assert (forall (c : expr) (b : bool),
              (is_binop c = false -> b = false) ->
              (count_open_chars (render c) + (if is_binop c then 1 else 0)
               <= binop_count c)%nat ->
              (count_open_chars
                 (if b then parenthesize (render c) else render c)
               <= binop_count c)%nat) as Hchild.
    { intros c b Hb Hc. destruct b.
      - rewrite count_open_chars_parenthesize.
        destruct (is_binop c); [lia|]. specialize (Hb eq_refl). discriminate.
      - destruct (is_binop c); lia. }
    assert (count_open_chars
              (if ((precedence l <? class_precedence cls)
                   || ((precedence l <=? class_precedence cls)
                       && left_parens cls))%Z
               then parenthesize (render l) else render l)
            <= binop_count l)%nat as HL.
    { apply (Hchild l); [|exact IHl]. intros Hleaf.
      pose proof (leaf_precedence l cls Hleaf) as Hle. rewrite Hle.
      apply Z.leb_gt in Hle.
      destruct (Z.ltb_spec (precedence l) (class_precedence cls));
        [lia|reflexivity]. }
    assert (count_open_chars
              (if (precedence r <? class_precedence cls)%Z
               then parenthesize (render r)
               else if right_parens cls
                       && (precedence r =? class_precedence cls)%Z
                    then parenthesize (render r) else render r)
            <= binop_count r)%nat as HR.
    { destruct (precedence r <? class_precedence cls) eqn:E1.
      - apply (Hchild r true); [|exact IHr]. intros Hleaf.
        pose proof (leaf_precedence r cls Hleaf) as Hle.
        apply Z.ltb_lt in E1. apply Z.leb_gt in Hle. lia.
      - apply (Hchild r); [|exact IHr]. intros Hleaf.
        pose proof (leaf_precedence r cls Hleaf) as Hle.
        apply Z.leb_gt in Hle.
        destruct (Z.eqb_spec (precedence r) (class_precedence cls));
          [lia|]. apply andb_false_r. }
    lia.
Qed.
End RenderParens.

Lemma extends_number_not_open (inp_str : string) (i : nat) (c : ascii) :
  extends_number inp_str i c = Ok true -> Ascii.eqb c "(" = false.
Proof.
  destruct (Ascii.eqb c "(") eqn:E; [|reflexivity].
  apply Ascii.eqb_eq in E. subst c. vm_compute. discriminate.
Qed.

Lemma tokenize_loop_open (inp_str chars : string) :
  forall (i : nat) (tokenized : list string) (num_add : string)
         (out : list string),
    count_open_chars num_add = 0%nat ->
    tokenize_loop inp_str chars i tokenized num_add = Ok out ->
    (count_open out <= count_open tokenized + count_open_chars chars)%nat.
Proof.
  induction chars as [|c chars IH]; intros i tokenized num_add out Hacc H.
  - injection H as <-. simpl. lia.
  - cbn [tokenize_loop] in H. cbn [count_open_chars].
    destruct (Ascii.eqb c " " || Ascii.eqb c ")") eqn:Hsp.
    + apply IH in H; [|exact Hacc]. lia.
    + unbind. destruct (extends_number inp_str i c) as [[]|] eqn:Hext;
        [| |discriminate].
      * rewrite (extends_number_not_open _ _ _ Hext).
        apply IH in H; [lia|].
        rewrite count_open_chars_app, Hacc. unfold char_token. simpl.
        rewrite (extends_number_not_open _ _ _ Hext). reflexivity.
      * apply IH in H; [|reflexivity].
        rewrite count_open_app in H. unfold char_token in H. simpl in H.
        assert (count_open (if String.eqb num_add "" then tokenized
                            else tokenized ++ [num_add])
                = count_open tokenized) as E.
        { destruct (String.eqb num_add ""); [reflexivity|].
          rewrite count_open_app. simpl.
          rewrite (no_open_not_paren _ Hacc). lia. }
        rewrite E in H.
        destruct c as [[] [] [] [] [] [] [] []]; simpl in H |- *; lia.
Qed.

Lemma count_open_removelast (tokens : list string) :
  (count_open (removelast tokens) <= count_open tokens)%nat.
Proof.
  induction tokens as [|t [|u rest] IH]; simpl in *; lia.
Qed.

Lemma tokenize_open (inp_str : string) (tokens : list string) :
  tokenize inp_str = Ok tokens ->
  (count_open tokens <= count_open_chars inp_str)%nat.
Proof.
  unfold tokenize. unbind.
  destruct (tokenize_loop inp_str (inp_str +:+ "|") 0 [] "") as [out|] eqn:H;
    [|discriminate].
  apply tokenize_loop_open in H; [|reflexivity].
  rewrite count_open_chars_app in H. simpl in H.
  pose proof (count_open_removelast out) as Hlast.
  unfold case. destruct out as [|t0 out0]; [discriminate|].
  destruct (removelast (t0 :: out0)) as [|t rest]; [discriminate|].
  destruct (String.eqb t ""); intros [= <-]; simpl in *; lia.
Qed.

Lemma expression_loop_open (tokenized_lst todo : list string) :
  forall (i : nat) (new_tok_list out : list string),
    expression_loop tokenized_lst todo i new_tok_list = Ok out ->
    (count_open out <= count_open new_tok_list + count_open todo)%nat.
Proof.
  induction todo as [|token rest IH]; intros i new_tok_list out H.
  - injection H as <-. simpl. lia.
  - cbn [expression_loop] in H. unbind. cbn [count_open].
    destruct (String.eqb token "*") eqn:Hstar.
    + apply String.eqb_eq in Hstar. subst token.
      change (String.eqb "*" "(") with false.
      destruct (py_index tokenized_lst (Z.of_nat i + 1)); [|discriminate].
      destruct (String.eqb a "*").
      * apply IH in H. lia.
      * destruct (py_index tokenized_lst (Z.of_nat i - 1)); [|discriminate].
        destruct (String.eqb a0 "*"); apply IH in H;
          rewrite count_open_app in H; simpl in H; lia.
    + apply IH in H. rewrite count_open_app in H. simpl in H. lia.
Qed.

Lemma py_index_drop {A} (l : list A) (i : nat) (x : A) :
  py_index l (Z.of_nat i) = Ok x -> drop i l = x :: drop (S i) l.
Proof.
  intros H. pose proof (py_index_ok l i x H) as Hlt. revert H.
  unfold py_index.
  destruct (Z.ltb_spec (Z.of_nat i) 0) as [H|_]; [lia|].
  destruct (Z.ltb_spec (Z.of_nat i) 0) as [H|_]; [lia|].
  destruct (Z.leb_spec (Z.of_nat (length l)) (Z.of_nat i)) as [H|_]; [lia|].
  simpl. rewrite Nat2Z.id.
  destruct (l !! i) as [y|] eqn:E; [|discriminate].
  intros [= ->]. apply drop_S. exact E.
Qed.

(** [parse_expression] reads one ["("] for each binary operation it
    builds. *)
Lemma parse_expression_open (fuel : nat) :
  forall (tokens : list string) (index : nat) (e : expr) (next : nat),
    parse_expression fuel tokens index = Some (Ok (Some (e, next))) ->
    (binop_count e + count_open (drop next tokens)
     <= count_open (drop index tokens))%nat.
Proof.
  induction fuel as [|fuel IH]; intros tokens index e next H;
    [discriminate|].
  cbn [parse_expression] in H.
  destruct (py_index tokens (Z.of_nat index)) as [token|] eqn:Htok;
    [|discriminate].
  rewrite (py_index_drop _ _ _ Htok). cbn [count_open].
  destruct (starts_number token) as [[]|]; [| |discriminate].
  { unbind. destruct (py_float_of_string token); [|discriminate].
    injection H as <- <-. simpl. lia. }
  destruct (isalpha token).
  { injection H as <- <-. simpl. lia. }
  destruct (String.eqb token "("); [|discriminate].
  destruct (parse_expression fuel tokens (S index)) as [[[[l opp_ind]|]|]|]
    eqn:Hl; try discriminate.
  cbn [unpack] in H.
  destruct (py_index tokens (Z.of_nat opp_ind)) as [operator|] eqn:Hop;
    [|discriminate].
  destruct (parse_expression fuel tokens (S opp_ind)) as [[[[r nxt]|]|]|]
    eqn:Hr; try discriminate.
  cbn [unpack] in H. unbind.
  destruct (symbol_dict_class operator); [|discriminate].
  injection H as <- <-.
  apply IH in Hl. apply IH in Hr.
  rewrite (py_index_drop _ _ _ Hop) in Hl. cbn [count_open] in Hl.
  simpl. lia.
Qed.

Lemma parse_open (tokens : list string) (e : expr) :
  parse tokens = Some (Ok e) -> (binop_count e <= count_open tokens)%nat.
Proof.
  unfold parse.
  destruct (parse_expression (S (length tokens)) tokens 0)
    as [[[[e' next]|]|]|] eqn:H; try discriminate.
  simpl. intros [= <-]. apply parse_expression_open in H.
  rewrite drop_0 in H. lia.
Qed.

(** Trees equal under [==] have the same shape. *)
Lemma expr_eq_binop_count (a : expr) :
  forall b, expr_eq a b = Ok true -> binop_count a = binop_count b.
Proof.
  induction a as [name|n|cls l IHl r IHr]; intros [name'|n'|cls' l' r'];
    simpl; try discriminate; try reflexivity.
  destruct (bool_decide (cls = cls')); [|discriminate].
  unfold py_and. unbind.
  destruct (expr_eq l l') as [[]|] eqn:El; try discriminate.
  destruct (expr_eq r r') as [[]|] eqn:Er; try discriminate.
  intros _. rewrite (IHl _ El), (IHr _ Er). reflexivity.
Qed.

(** *** The round trip *)

Section RoundTrip.
Context {pf : Platform}.

(** C1, amended: rendering and parsing back reproduces a tree that is a
    single leaf, an int that [float] accepts (up to [==]: the parser builds
    its float) or a one-letter variable.  It reproduces no tree with a
    binary operation at the root: whatever [expression] returns on the
    rendering has fewer binary operations than the tree, and is not equal
    to it. *)
Theorem render_parse_round_trip :
  (forall (z : Z) (f : pyfloat),
     py_float (PyInt z) = Ok f ->
     expression (render (Num (PyInt z))) = Some (Ok (Num (PyFloat f))) /\
     expr_eq (Num (PyFloat f)) (Num (PyInt z)) = Ok true) /\
  (forall c : ascii,
     isalpha_char c = true ->
     expression (render (Var (String c ""))) = Some (Ok (Var (String c "")))) /\
  (forall (cls : opclass) (l r parsed : expr),
     plain_leaves (BinOp cls l r) = true ->
     expression (render (BinOp cls l r)) = Some (Ok parsed) ->
     (binop_count parsed < binop_count (BinOp cls l r))%nat /\
     expr_eq parsed (BinOp cls l r) <> Ok true).
Proof.
  split; [|split].
  - intros z f Hf. destruct (int_eq_its_float z f Hf) as [-> Heq].
    split; [|exact Heq]. exact (expression_int_literal z).
  - intros c Hc. exact (expression_letter c Hc).
  - intros cls l r parsed Hleaves Hparse.
    assert (binop_count parsed < binop_count (BinOp cls l r))%nat as Hlt.
    { pose proof (render_open_parens (BinOp cls l r) Hleaves) as Hrender.
      cbn [is_binop] in Hrender.
      unfold expression in Hparse.
      destruct (tokenize (render (BinOp cls l r))) as [tokenized_lst|] eqn:Ht;
        [|discriminate].
      destruct (expression_loop tokenized_lst tokenized_lst 0 [])
        as [new_tok_list|] eqn:He; [|discriminate].
      apply tokenize_open in Ht. apply expression_loop_open in He.
      apply parse_open in Hparse. simpl in He. lia. }
    split; [exact Hlt|]. intros Heq.
    apply expr_eq_binop_count in Heq. lia.
Qed.
End RoundTrip.

(** C1, as stated, fails: [Add(Num(1), Num(2))] renders as ["1 + 2"], which
    parses to [Num(1.0)]. *)
Lemma round_trip_fails_on_sum :
  on_every_platform (fun pf =>
    render (BinOp Add (Num (PyInt 1)) (Num (PyInt 2))) = "1 + 2" /\
    expression (render (BinOp Add (Num (PyInt 1)) (Num (PyInt 2))))
    = Some (Ok (Num (PyFloat fone))) /\
    expr_eq (Num (PyFloat fone)) (BinOp Add (Num (PyInt 1)) (Num (PyInt 2)))
    = Ok false).
Proof. intros pf. repeat split; vm_compute; reflexivity. Qed.

(** C1, amended, at [Num(7)] and at [Mul(Num(2), Add(Num(3), Num(4)))],
    which renders as ["2 * (3 + 4)"] and parses to [Num(2.0)]. *)
Lemma render_parse_round_trip_witness :
  on_every_platform (fun pf =>
    (expression (render (Num (PyInt 7)))
       = Some (Ok (Num (PyFloat (float_of_Z 7)))) /\
     expr_eq (Num (PyFloat (float_of_Z 7))) (Num (PyInt 7)) = Ok true) /\
    ((binop_count (Num (PyFloat (float_of_Z 2)))
      < binop_count (BinOp Mul (Num (PyInt 2))
                       (BinOp Add (Num (PyInt 3)) (Num (PyInt 4)))))%nat /\
     expr_eq (Num (PyFloat (float_of_Z 2)))
       (BinOp Mul (Num (PyInt 2)) (BinOp Add (Num (PyInt 3)) (Num (PyInt 4))))
     <> Ok true)).
Proof.
  intros pf. split.
  - apply (proj1 (@render_parse_round_trip pf) 7 (float_of_Z 7)).
    vm_compute. reflexivity.
  - apply (proj2 (proj2 (@render_parse_round_trip pf)) Mul (Num (PyInt 2))
             (BinOp Add (Num (PyInt 3)) (Num (PyInt 4)))).
    + reflexivity.
    + vm_compute. reflexivity.
Defined.

(** * Further properties *)

(** ** [eval] and the bindings *)

Section EvalBindings.
Context {pf : Platform}.

(** [eval] reads the bindings at the variables of the tree only: two
    binding dictionaries that agree on them give the same result, value or
    exception. *)
Theorem eval_agree (e : expr) (b1 b2 : gmap string pynum) :
  (forall name, name ∈ vars e -> b1 !! name = b2 !! name) ->
  eval e b1 = eval e b2.
Proof.
  induction e as [name|n|cls l IHl r IHr]; intros H; simpl.
  - rewrite (H name); [reflexivity|]. simpl. apply elem_of_singleton_2.
    reflexivity.
  - reflexivity.
  - rewrite IHl, IHr; [reflexivity| |];
      intros name Hin; apply H; simpl; apply elem_of_union; auto.
Qed.
End EvalBindings.

Lemma eval_agree_witness :
  on_every_platform (fun pf =>
    eval (BinOp Add (Var "x") (Num (PyInt 1))) {[ "x" := PyFloat fone ]}
    = eval (BinOp Add (Var "x") (Num (PyInt 1)))
        (<[ "y" := PyFloat fzero ]> {[ "x" := PyFloat fone ]})).
Proof.
  intros pf. apply eval_agree. intros name Hin. simpl in Hin.
  apply elem_of_union in Hin as [Hin|Hin];
    [|exfalso; exact (not_elem_of_empty _ Hin)].
  apply elem_of_singleton_1 in Hin. subst name.
  rewrite lookup_insert_ne by discriminate. reflexivity.
Defined.

(** Scenario 4 of the specification: [x / y] with [x] bound only. *)
Lemma eval_unbound_witness :
  on_every_platform (fun pf =>
    (is_binop (BinOp Div (Var "x") (Var "y")) = false /\
     eval (BinOp Div (Var "x") (Var "y"))
       {[ "x" := PyFloat (float_of_Z 6) ]} = Ok None) \/
    (exists x, eval (BinOp Div (Var "x") (Var "y"))
                 {[ "x" := PyFloat (float_of_Z 6) ]} = Raise x /\
               (x = NameError \/ arithmetic_error x))).
Proof.
  intros pf. apply eval_unbound.
  intros H. simpl in H. rewrite dom_singleton_L in H.
  assert ("y" ∈ ({[ "x" ]} : gset string)) as Hy
    by (apply H, elem_of_union; right; apply elem_of_singleton_2; reflexivity).
  apply elem_of_singleton_1 in Hy. discriminate.
Defined.

(** ** What [simplify] leaves behind *)

Section SimplifyResults.
Context {pf : Platform}.

(** On children that are already simplified, [simplify] at a node does
    what it did on the children they came from. *)
Lemma simplify_replay (cls : opclass) (l r sl sr : expr) :
  simplify l = Ok sl -> simplify r = Ok sr ->
  simplify sl = Ok sl -> simplify sr = Ok sr ->
  simplify (BinOp cls sl sr) = simplify (BinOp cls l r).
Proof.
  intros Hl Hr Hsl Hsr. destruct cls; simpl; rewrite Hl, Hr, Hsl, Hsr;
    reflexivity.
Qed.

(** [simplify] is idempotent: simplifying its result again returns the
    same tree, so a second pass finds nothing left to do. *)
Theorem simplify_idempotent (e s : expr) :
  simplify e = Ok s -> simplify s = Ok s.
Proof.
  revert s. induction e as [name|n|cls l IHl r IHr]; intros s H.
  - injection H as <-. reflexivity.
  - injection H as <-. reflexivity.
  - destruct (simplify_shape cls l r s H) as (sl & sr & Hl & Hr & Hs).
    pose proof (IHl _ Hl) as Hsl. pose proof (IHr _ Hr) as Hsr.
    destruct Hs as [-> | [-> | [[n ->] | ->]]]; trivial.
    rewrite (simplify_replay cls l r sl sr Hl Hr Hsl Hsr). exact H.
Qed.

(** [simplify] brings in no variable. *)
Theorem simplify_vars (e s : expr) :
  simplify e = Ok s -> vars s ⊆ vars e.
Proof.
  revert s. induction e as [name|n|cls l IHl r IHr]; intros s H.
  - injection H as <-. reflexivity.
  - injection H as <-. reflexivity.
  - destruct (simplify_shape cls l r s H) as (sl & sr & Hl & Hr & Hs).
    pose proof (IHl _ Hl) as Hsl. pose proof (IHr _ Hr) as Hsr.
    destruct Hs as [-> | [-> | [[n ->] | ->]]]; simpl.
    + apply union_subseteq_l'. exact Hsl.
    + apply union_subseteq_r'. exact Hsr.
    + apply empty_subseteq.
    + apply union_mono; assumption.
Qed.

Lemma fold_or_rebuild_folded (cls : opclass) (sl sr s : expr) :
  constants_folded sl = true -> constants_folded sr = true ->
  fold_or_rebuild cls sl sr = Ok s -> constants_folded s = true.
Proof.
  intros Hl Hr. unfold fold_or_rebuild.
  destruct sl as [a|a|c a1 a2], sr as [b|b|d b1 b2];
    try (intros [= <-]; cbn [constants_folded] in *;
         rewrite ?Hl, ?Hr; reflexivity).
  unbind. destruct (py_arith cls a b); [|discriminate].
  intros [= <-]. reflexivity.
Qed.

(** In the result of [simplify] every pair of constants is folded: no
    binary operation is left with two numbers as its operands. *)
Theorem simplify_folds_constants (e s : expr) :
  simplify e = Ok s -> constants_folded s = true.
Proof.
  revert s. induction e as [name|n|cls l IHl r IHr]; intros s.
  - intros [= <-]. reflexivity.
  - intros [= <-]. reflexivity.
  - destruct cls; simpl; unbind;
      (destruct (simplify l) as [sl|]; [|discriminate]);
      (destruct (simplify r) as [sr|]; [|discriminate]);
      pose proof (IHl _ eq_refl) as Hl; pose proof (IHr _ eq_refl) as Hr;
      unfold py_and, py_or, pow_zero_base; unbind;
      repeat (match goal with
              | |- context [is_num ?a ?z] => destruct (is_num a z) as [[]|]
              | |- context [py_gt0 ?n] => destruct (py_gt0 n) as [[]|]
              | |- context [match ?c with _ => _ end] => is_var c; destruct c
              end; try discriminate);
      try (intros [= <-]; assumption || reflexivity);
      apply fold_or_rebuild_folded; assumption.
Qed.
End SimplifyResults.

(** At [Mul(Add(x, 0), Add(1, 1))], which simplifies to [Mul(x, 2)]. *)
Lemma simplify_idempotent_witness :
  on_every_platform (fun pf =>
    simplify (BinOp Mul (Var "x") (Num (PyInt 2)))
    = Ok (BinOp Mul (Var "x") (Num (PyInt 2)))).
Proof.
  intros pf.
  apply (simplify_idempotent
           (BinOp Mul (BinOp Add (Var "x") (Num (PyInt 0)))
                      (BinOp Add (Num (PyInt 1)) (Num (PyInt 1))))).
  vm_compute. reflexivity.
Defined.

(** At [Mul(Add(x, 0), y)], which simplifies to [Mul(x, y)]. *)
Lemma simplify_vars_witness :
  on_every_platform (fun pf =>
    vars (BinOp Mul (Var "x") (Var "y"))
    ⊆ vars (BinOp Mul (BinOp Add (Var "x") (Num (PyInt 0))) (Var "y"))).
Proof.
  intros pf.
  apply (simplify_vars
           (BinOp Mul (BinOp Add (Var "x") (Num (PyInt 0))) (Var "y"))).
  vm_compute. reflexivity.
Defined.

(** At [Add(Add(1, 2), x)], which simplifies to [Add(3, x)]. *)
Lemma simplify_folds_constants_witness :
  on_every_platform (fun pf =>
    constants_folded (BinOp Add (Num (PyInt 3)) (Var "x")) = true).
Proof.
  intros pf.
  apply (simplify_folds_constants
           (BinOp Add (BinOp Add (Num (PyInt 1)) (Num (PyInt 2))) (Var "x"))).
  vm_compute. reflexivity.
Defined.

(** ** [deriv] *)

(** Differentiation brings in no variable. *)
Theorem deriv_vars (e : expr) (wrt : string) :
  vars (deriv e wrt) ⊆ vars e.
Proof.
  induction e as [name|n|cls l IHl r IHr]; simpl.
  - destruct (String.eqb name wrt); apply empty_subseteq.
  - reflexivity.
  - destruct cls; simpl; intros x; specialize (IHl x); specialize (IHr x);
      rewrite ?elem_of_union, ?elem_of_empty; tauto.
Qed.

Section DerivOfConstant.
Context {pf : Platform}.

Lemma simplify_children (cls : opclass) (a b s : expr) :
  simplify (BinOp cls a b) = Ok s ->
  exists sa sb, simplify a = Ok sa /\ simplify b = Ok sb.
Proof.
  intros H. destruct (simplify_shape cls a b s H) as (sa & sb & Ha & Hb & _).
  eauto.
Qed.

Lemma simplify_zero_zero (cls : opclass) (a b s : expr) :
  cls = Add \/ cls = Sub ->
  simplify a = Ok (Num (PyInt 0)) -> simplify b = Ok (Num (PyInt 0)) ->
  simplify (BinOp cls a b) = Ok s -> s = Num (PyInt 0).
Proof.
  intros [-> | ->] Ha Hb; simpl; rewrite Ha, Hb; vm_compute; congruence.
Qed.

Lemma simplify_mul_zero_right (a b s : expr) :
  simplify b = Ok (Num (PyInt 0)) ->
  simplify (BinOp Mul a b) = Ok s -> s = Num (PyInt 0).
Proof.
  intros Hb. simpl. rewrite Hb. unbind.
  destruct (simplify a) as [sa|]; [|discriminate].
  unfold py_or. unbind.
  destruct (is_num sa 0) as [[]|]; try discriminate; [congruence|].
  change (is_num (Num (PyInt 0)) 0) with (@Ok bool true). congruence.
Qed.

Lemma simplify_div_zero_left (a b s : expr) :
  simplify a = Ok (Num (PyInt 0)) ->
  simplify (BinOp Div a b) = Ok s -> s = Num (PyInt 0).
Proof.
  intros Ha. simpl. rewrite Ha. unbind.
  destruct (simplify b) as [sb|]; [|discriminate].
  change (is_num (Num (PyInt 0)) 0) with (@Ok bool true). congruence.
Qed.

(** The derivative with respect to a variable that does not occur in the
    tree simplifies to [Num(0)], whenever its simplification returns. *)
Theorem deriv_of_constant_simplifies_to_zero (e s : expr) (wrt : string) :
  wrt ∉ vars e ->
  simplify (deriv e wrt) = Ok s -> s = Num (PyInt 0).
Proof.
  revert s. induction e as [name|n|cls l IHl r IHr]; intros s Hw H.
  - simpl in Hw, H. revert H.
    destruct (String.eqb_spec name wrt) as [->|_]; [|simpl; congruence].
    exfalso. apply Hw, elem_of_singleton_2. reflexivity.
  - simpl in H. congruence.
  - simpl in Hw. apply not_elem_of_union in Hw as [Hwl Hwr].
    assert (forall a u, simplify (BinOp Mul a (deriv l wrt)) = Ok u ->
                        u = Num (PyInt 0)) as Hml.
    { intros a u Hu.
      destruct (simplify_children _ _ _ _ Hu) as (sa & sd & _ & Hd).
      pose proof (IHl _ Hwl Hd) as ->.
      exact (simplify_mul_zero_right _ _ _ Hd Hu). }
    assert (forall a u, simplify (BinOp Mul a (deriv r wrt)) = Ok u ->
                        u = Num (PyInt 0)) as Hmr.
    { intros a u Hu.
      destruct (simplify_children _ _ _ _ Hu) as (sa & sd & _ & Hd).
      pose proof (IHr _ Hwr Hd) as ->.
      exact (simplify_mul_zero_right _ _ _ Hd Hu). }
    destruct cls; cbn [deriv] in H;
      destruct (simplify_children _ _ _ _ H) as (u & v & Hu & Hv).
    + pose proof (IHl _ Hwl Hu) as ->. pose proof (IHr _ Hwr Hv) as ->.
      exact (simplify_zero_zero Add _ _ _ (or_introl eq_refl) Hu Hv H).
    + pose proof (IHl _ Hwl Hu) as ->. pose proof (IHr _ Hwr Hv) as ->.
      exact (simplify_zero_zero Sub _ _ _ (or_intror eq_refl) Hu Hv H).
    + pose proof (Hmr _ _ Hu) as ->. pose proof (Hml _ _ Hv) as ->.
      exact (simplify_zero_zero Add _ _ _ (or_introl eq_refl) Hu Hv H).
    + destruct (simplify_children _ _ _ _ Hu) as (u1 & u2 & Hu1 & Hu2).
      pose proof (Hml _ _ Hu1) as ->. pose proof (Hmr _ _ Hu2) as ->.
      pose proof (simplify_zero_zero Sub _ _ _ (or_intror eq_refl) Hu1 Hu2 Hu)
        as ->.
      exact (simplify_div_zero_left _ _ _ Hu H).
    + exact (Hml _ _ H).
Qed.
End DerivOfConstant.

(** At [d/dy (x * x)], that is [Add(Mul(x, 0), Mul(x, 0))]. *)
Lemma deriv_of_constant_witness :
  on_every_platform (fun pf =>
    Num (PyInt 0) = Num (PyInt 0) /\
    simplify (deriv (BinOp Mul (Var "x") (Var "x")) "y")
    = Ok (Num (PyInt 0))).
Proof.
  intros pf.
  assert (simplify (deriv (BinOp Mul (Var "x") (Var "x")) "y")
          = Ok (Num (PyInt 0))) as H by (vm_compute; reflexivity).
  split; [|exact H].
  apply (deriv_of_constant_simplifies_to_zero
           (BinOp Mul (Var "x") (Var "x")) (Num (PyInt 0)) "y");
    [|exact H].
  simpl. intros Hin. apply elem_of_union in Hin as [Hin|Hin];
    apply elem_of_singleton_1 in Hin; discriminate.
Defined.

(** ** [__eq__] as a relation *)

Lemma SFeqb_true_compare (x y z : pyfloat) :
  SFeqb x y = true -> SFcompare x z = SFcompare y z.
Proof.
  unfold SFeqb.
  destruct x as [sx|sx| |sx mx ex], y as [sy|sy| |sy my ey];
    try (simpl; discriminate); try (destruct sx, sy; simpl; discriminate).
  - intros _. destruct z; reflexivity.
  - destruct sx, sy; try (simpl; discriminate); reflexivity.
  - cbn [SFcompare].
    change (Pcompare mx my Eq) with (Pos.compare mx my).
    destruct sx, sy; try discriminate;
      destruct (Z.compare_spec ex ey) as [->| |]; try discriminate;
      destruct (Pos.compare_spec mx my) as [->| |]; try discriminate;
      reflexivity.
Qed.

Lemma SFeqb_nan_free (x y : pyfloat) :
  SFeqb x y = true -> is_nan x = false.
Proof. destruct x; try reflexivity. destruct y; discriminate. Qed.

(** [==] is symmetric whenever it returns. *)
Theorem expr_eq_sym (a b : expr) (v : bool) :
  expr_eq a b = Ok v -> expr_eq b a = Ok v.
Proof.
  revert b v. induction a as [name|n|cls l IHl r IHr];
    intros [name'|n'|cls' l' r'] v; simpl; try (intros H; exact H).
  - rewrite (String.eqb_sym name' name). trivial.
  - unbind. destruct (py_float n) as [f|]; [|discriminate].
    destruct (py_float n') as [f'|]; [|discriminate].
    rewrite (SFeqb_sym f' f). trivial.
  - destruct (decide (cls = cls')) as [->|Hne].
    + rewrite !bool_decide_eq_true_2 by reflexivity. unfold py_and. unbind.
      destruct (expr_eq l l') as [x|] eqn:Hl; [|discriminate].
      rewrite (IHl _ _ Hl). destruct x; [|trivial].
      destruct (expr_eq r r') as [y|] eqn:Hr; [|discriminate].
      rewrite (IHr _ _ Hr). trivial.
    + rewrite !bool_decide_eq_false_2 by congruence. trivial.
Qed.

(** A tree is equal to itself exactly when [float] converts each of its
    numbers to something that is not a NaN. *)
Theorem expr_eq_refl_iff (e : expr) :
  expr_eq e e = Ok true <-> numbers_comparable e = true.
Proof.
  induction e as [name|n|cls l IHl r IHr]; simpl.
  - rewrite String.eqb_refl. tauto.
  - unbind. destruct (py_float n) as [f|]; [|split; discriminate].
    split.
    + intros [= H]. rewrite (SFeqb_nan_free f f H). reflexivity.
    + intros H. rewrite SFeqb_refl; [reflexivity|].
      destruct (is_nan f); [discriminate|reflexivity].
  - rewrite bool_decide_eq_true_2 by reflexivity. unfold py_and. unbind.
    rewrite String.eqb_refl, andb_true_iff, <- IHl, <- IHr.
    destruct (expr_eq l l) as [[]|]; destruct (expr_eq r r) as [[]|];
      split; try discriminate; try tauto; intros [? ?]; discriminate.
Qed.

(** Trees that [==] calls equal differ in their numbers only: they have
    the same operators, grouping and variable names. *)
Theorem expr_eq_skeleton (a b : expr) :
  expr_eq a b = Ok true -> skeleton a = skeleton b.
Proof.
  revert b. induction a as [name|n|cls l IHl r IHr];
    intros [name'|n'|cls' l' r']; simpl; try discriminate.
  - intros [= H]. apply String.eqb_eq in H. congruence.
  - reflexivity.
  - destruct (decide (cls = cls')) as [->|Hne].
    + rewrite bool_decide_eq_true_2 by reflexivity. unfold py_and. unbind.
      destruct (expr_eq l l') as [[]|] eqn:Hl; try discriminate.
      destruct (expr_eq r r') as [[]|] eqn:Hr; try discriminate.
      intros _. rewrite (IHl _ Hl), (IHr _ Hr). reflexivity.
    + rewrite bool_decide_eq_false_2 by congruence. discriminate.
Qed.

(** [==] is transitive: a tree equal to [b] compares with any tree as [b]
    does. *)
Theorem expr_eq_trans (a b c : expr) (v : bool) :
  expr_eq a b = Ok true -> expr_eq b c = Ok v -> expr_eq a c = Ok v.
Proof.
  revert b c v. induction a as [name|n|cls l IHl r IHr];
    intros [name'|n'|cls' l' r'] c v; simpl; try discriminate.
  - intros [= H]. apply String.eqb_eq in H. subst name'. trivial.
  - unbind. destruct (py_float n) as [f|]; [|discriminate].
    destruct (py_float n') as [f'|]; [|discriminate].
    intros [= H]. destruct c as [name''|n''|cls'' l'' r'']; trivial.
    destruct (py_float n'') as [f''|]; [|trivial].
    unfold SFeqb. rewrite (SFeqb_true_compare f f' f'' H). trivial.
  - destruct (decide (cls = cls')) as [->|Hne];
      [|rewrite bool_decide_eq_false_2 by congruence; discriminate].
    rewrite bool_decide_eq_true_2 by reflexivity. unfold py_and. unbind.
    destruct (expr_eq l l') as [[]|] eqn:Hl; try discriminate.
    destruct (expr_eq r r') as [[]|] eqn:Hr; try discriminate.
    intros _. destruct c as [name''|n''|cls'' l'' r'']; trivial.
    destruct (bool_decide (cls' = cls'')); [|trivial].
    destruct (expr_eq l' l'') as [x|] eqn:Hl'; [|discriminate].
    rewrite (IHl _ _ _ Hl Hl'). destruct x; [|trivial].
    destruct (expr_eq r' r'') as [y|] eqn:Hr'; [|discriminate].
    rewrite (IHr _ _ _ Hr Hr'). trivial.
Qed.

(** [Num(1) == Num(1.0)], in both directions. *)
Lemma expr_eq_sym_witness :
  expr_eq (Num (PyFloat fone)) (Num (PyInt 1)) = Ok true.
Proof.
  apply (expr_eq_sym (Num (PyInt 1)) (Num (PyFloat fone)) true).
  vm_compute. reflexivity.
Defined.

(** [Add(x, 1)] and [Add(x, 1.0)] have the same skeleton. *)
Lemma expr_eq_skeleton_witness :
  skeleton (BinOp Add (Var "x") (Num (PyInt 1)))
  = skeleton (BinOp Add (Var "x") (Num (PyFloat fone))).
Proof.
  apply (expr_eq_skeleton (BinOp Add (Var "x") (Num (PyInt 1)))
           (BinOp Add (Var "x") (Num (PyFloat fone)))).
  vm_compute. reflexivity.
Defined.

(** [Num(0) == Num(0.0)] and [Num(0.0) == Num(-0.0)], so
    [Num(0) == Num(-0.0)]. *)
Lemma expr_eq_trans_witness :
  expr_eq (Num (PyInt 0)) (Num (PyFloat (S754_zero true))) = Ok true.
Proof.
  apply (expr_eq_trans (Num (PyInt 0)) (Num (PyFloat fzero))
           (Num (PyFloat (S754_zero true))) true);
    vm_compute; reflexivity.
Defined.

(** ** What [__str__] does not tell apart *)

Lemma append_assoc (a b c : string) : (a +:+ b) +:+ c = a +:+ (b +:+ c).
Proof.
  induction a as [|x a IH]; [reflexivity|].
  rewrite !append_cons, IH. reflexivity.
Qed.

Section RenderAmbiguity.
Context {pf : Platform}.

(** The text of a sum does not show how its terms are grouped. *)
Theorem render_forgets_sum_grouping (a b c : expr) :
  render (BinOp Add (BinOp Add a b) c) = render (BinOp Add a (BinOp Add b c)).
Proof.
  cbn [render precedence class_precedence left_parens right_parens opp].
  change (5 <? 5) with false. change (5 <=? 5) with true. cbn [andb orb].
  rewrite !andb_false_r, !orb_false_r.
  assert (forall e, (precedence e <? 5) = false) as Hlow
    by (intros [name|n|[] l r]; reflexivity).
  rewrite !Hlow, !append_assoc. reflexivity.
Qed.

(** A power of a product and a product with a power have one text: the
    trees [Pow(a, Mul(b, c))] and [Mul(Pow(a, b), c)], which are not equal,
    are rendered alike. *)
Theorem render_conflates_pow_and_mul (a b c : expr) :
  render (BinOp Pow a (BinOp Mul b c)) = render (BinOp Mul (BinOp Pow a b) c)
  /\ expr_eq (BinOp Pow a (BinOp Mul b c)) (BinOp Mul (BinOp Pow a b) c)
     = Ok false.
Proof.
  split; [|reflexivity].
  cbn [render precedence class_precedence left_parens right_parens opp].
  change (10 <? 10) with false. change (10 <=? 10) with true.
  cbn [andb orb]. rewrite !andb_false_r, !orb_false_r.
  rewrite !append_assoc. reflexivity.
Qed.
End RenderAmbiguity.

(** ** [tokenize] at its edges *)

Lemma extends_number_raises (inp_str : string) (i : nat) (c : ascii) (x : exn) :
  extends_number inp_str i c = Raise x -> x = IndexError.
Proof.
  unfold extends_number, str_index.
  destruct (isdigit c || Ascii.eqb c "."); [discriminate|].
  destruct (Ascii.eqb c "-"); [|discriminate]. unbind.
  destruct (String.get (S i) inp_str); [discriminate|congruence].
Qed.

(** Over a prefix of the text the loop raises [IndexError] or goes on
    behind it. *)
Lemma tokenize_loop_prefix (inp_str s rest : string) :
  forall (i : nat) (tokenized : list string) (num_add : string),
    tokenize_loop inp_str (s +:+ rest) i tokenized num_add = Raise IndexError
    \/ exists tokenized' num_add',
         tokenize_loop inp_str (s +:+ rest) i tokenized num_add
         = tokenize_loop inp_str rest (i + String.length s) tokenized' num_add'.
Proof.
  induction s as [|c s IH]; intros i tokenized num_add.
  - right. exists tokenized, num_add. rewrite append_nil. simpl.
    rewrite Nat.add_0_r. reflexivity.
  - rewrite append_cons. cbn [tokenize_loop String.length].
    replace (i + S (String.length s))%nat with (S i + String.length s)%nat
      by lia.
    destruct (Ascii.eqb c " " || Ascii.eqb c ")"); [apply IH|].
    unbind. destruct (extends_number inp_str i c) as [[]|x] eqn:He.
    + apply IH.
    + apply IH.
    + left. rewrite (extends_number_raises _ _ _ _ He). reflexivity.
Qed.

Lemma tokenize_loop_raises (inp_str chars : string) :
  forall (i : nat) (tokenized : list string) (num_add : string) (x : exn),
    tokenize_loop inp_str chars i tokenized num_add = Raise x ->
    x = IndexError.
Proof.
  induction chars as [|c chars IH]; intros i tokenized num_add x;
    [discriminate|].
  cbn [tokenize_loop].
  destruct (Ascii.eqb c " " || Ascii.eqb c ")"); [apply IH|].
  unbind. destruct (extends_number inp_str i c) as [[]|y] eqn:He.
  - apply IH.
  - apply IH.
  - intros [= <-]. exact (extends_number_raises _ _ _ _ He).
Qed.

Lemma tokenize_raises (inp_str : string) (x : exn) :
  tokenize inp_str = Raise x -> x = IndexError.
Proof.
  unfold tokenize. unbind.
  destruct (tokenize_loop inp_str (inp_str +:+ "|") 0 [] "") as [out|y] eqn:H.
  - unfold case. destruct out as [|t0 out0]; [congruence|].
    destruct (removelast (t0 :: out0)) as [|t rest]; [congruence|].
    destruct (String.eqb t ""); discriminate.
  - intros [= <-]. exact (tokenize_loop_raises _ _ _ _ _ _ H).
Qed.

Lemma get_past_end (s : string) (n : nat) :
  (String.length s <= n)%nat -> String.get n s = None.
Proof.
  revert n. induction s as [|c s IH]; intros n H; [reflexivity|].
  destruct n as [|n]; simpl in *; [lia|]. apply IH. lia.
Qed.

Lemma length_append (a b : string) :
  String.length (a +:+ b) = (String.length a + String.length b)%nat.
Proof.
  induction a as [|c a IH]; [reflexivity|].
  rewrite append_cons. simpl. rewrite IH. reflexivity.
Qed.

(** A text that ends with a minus sign makes [tokenize] raise
    [IndexError]: the look-ahead behind the sign reads past the end of the
    text. *)
Theorem tokenize_trailing_minus (s : string) :
  tokenize (s +:+ "-") = Raise IndexError.
Proof.
  unfold tokenize. rewrite append_assoc.
  destruct (tokenize_loop_prefix (s +:+ "-") s ("-" +:+ "|") 0 [] "")
    as [H|(tokenized & num_add & H)]; rewrite H; [reflexivity|].
  change ("-" +:+ "|") with (String "-" "|"). cbn [tokenize_loop].
  change (Ascii.eqb "-" " " || Ascii.eqb "-" ")") with false. cbv iota.
  unfold extends_number.
  change (isdigit "-" || Ascii.eqb "-" ".") with false.
  change (Ascii.eqb "-" "-") with true. cbv iota.
  unfold str_index.
  rewrite (get_past_end (s +:+ "-") (S (0 + String.length s)));
    [reflexivity|].
  rewrite length_append. simpl. lia.
Qed.

Lemma tokenize_loop_skipped (inp_str s rest : string) :
  all_chars skipped_char s = true ->
  forall (i : nat) (tokenized : list string) (num_add : string),
    tokenize_loop inp_str (s +:+ rest) i tokenized num_add
    = tokenize_loop inp_str rest (i + String.length s) tokenized num_add.
Proof.
  induction s as [|c s IH]; intros H i tokenized num_add.
  - rewrite append_nil. simpl. rewrite Nat.add_0_r. reflexivity.
  - simpl in H. apply andb_true_iff in H as [Hc Hs].
    rewrite append_cons. cbn [tokenize_loop]. unfold skipped_char in Hc.
    rewrite Hc, (IH Hs). f_equal. simpl. lia.
Qed.

(** A text of spaces and closing parentheses only, the empty text among
    them, makes [tokenize] raise [IndexError]: [case] looks at the first
    token of an empty list. *)
Theorem tokenize_blank (s : string) :
  all_chars skipped_char s = true -> tokenize s = Raise IndexError.
Proof.
  intros H. unfold tokenize.
  rewrite (tokenize_loop_skipped s s "|" H). reflexivity.
Qed.

Lemma tokenize_blank_witness : tokenize "  ) " = Raise IndexError.
Proof. apply tokenize_blank. reflexivity. Defined.

(** ** The tokens of [tokenize] *)

Lemma numeric_char_not_skipped (c : ascii) :
  numeric_char c = true -> skipped_char c = false.
Proof.
  destruct c as [[] [] [] [] [] [] [] []]; vm_compute; congruence.
Qed.

Lemma extends_number_numeric (inp_str : string) (i : nat) (c : ascii) :
  extends_number inp_str i c = Ok true -> numeric_char c = true.
Proof.
  unfold extends_number, numeric_char.
  destruct (isdigit c || Ascii.eqb c "."); [reflexivity|].
  destruct (Ascii.eqb c "-"); [|discriminate].
  intros _. apply orb_true_r.
Qed.

Lemma all_chars_app (p : ascii -> bool) (a b : string) :
  all_chars p (a +:+ b) = all_chars p a && all_chars p b.
Proof.
  induction a as [|c a IH]; [reflexivity|].
  rewrite append_cons. simpl. rewrite IH, andb_assoc. reflexivity.
Qed.

Lemma numeric_run_well_formed (t : string) :
  all_chars numeric_char t = true -> t <> "" -> well_formed_token t = true.
Proof.
  destruct t as [|c [|d t]]; [congruence| |trivial].
  simpl. rewrite andb_true_r. intros Hc _.
  rewrite (numeric_char_not_skipped c Hc). reflexivity.
Qed.

Lemma tokenize_loop_well_formed (inp_str chars : string) :
  forall (i : nat) (tokenized : list string) (num_add : string)
         (out : list string),
    forallb well_formed_token tokenized = true ->
    all_chars numeric_char num_add = true ->
    tokenize_loop inp_str chars i tokenized num_add = Ok out ->
    forallb well_formed_token out = true.
Proof.
  induction chars as [|c chars IH]; intros i tokenized num_add out Ht Ha H.
  - injection H as <-. exact Ht.
  - cbn [tokenize_loop] in H.
    destruct (Ascii.eqb c " " || Ascii.eqb c ")") eqn:Hsk.
    + exact (IH _ _ _ _ Ht Ha H).
    + unbind. destruct (extends_number inp_str i c) as [[]|] eqn:He;
        [| |discriminate].
      * apply (IH _ _ _ _ Ht) in H; [exact H|].
        rewrite all_chars_app, Ha. unfold char_token. simpl.
        rewrite (extends_number_numeric _ _ _ He). reflexivity.
      * apply IH in H; [exact H| |reflexivity].
        rewrite forallb_app. apply andb_true_iff. split.
        -- destruct (String.eqb_spec num_add "") as [_|Hne]; [exact Ht|].
           rewrite forallb_app, Ht. simpl.
           rewrite (numeric_run_well_formed _ Ha Hne). reflexivity.
        -- unfold char_token. simpl. unfold skipped_char. rewrite Hsk.
           reflexivity.
Qed.

Lemma forallb_removelast {A} (p : A -> bool) (l : list A) :
  forallb p l = true -> forallb p (removelast l) = true.
Proof.
  induction l as [|a l IH]; [trivial|]. destruct l as [|b l]; [trivial|].
  intros H. cbn [forallb] in H. apply andb_true_iff in H as [Ha Hb].
  change (removelast (a :: b :: l)) with (a :: removelast (b :: l)).
  cbn [forallb]. rewrite Ha. apply IH. exact Hb.
Qed.

(** Every token that [tokenize] returns is a non-empty run of digits,
    points and minus signs, or one character that is neither a space nor a
    closing parenthesis: no empty token, no space and no closing
    parenthesis reaches the parser. *)
Theorem tokenize_well_formed (inp_str : string) (tokens : list string) :
  tokenize inp_str = Ok tokens -> forallb well_formed_token tokens = true.
Proof.
  unfold tokenize. unbind.
  destruct (tokenize_loop inp_str (inp_str +:+ "|") 0 [] "") as [out|] eqn:H;
    [|discriminate].
  apply tokenize_loop_well_formed in H; [|reflexivity..].
  apply forallb_removelast in H. unfold case.
  destruct out as [|t0 out0]; [discriminate|].
  destruct (removelast (t0 :: out0)) as [|t rest]; [discriminate|].
  simpl in H. apply andb_true_iff in H as [Ht Hrest].
  destruct (String.eqb t ""); intros [= <-]; simpl; rewrite ?Ht; exact Hrest.
Qed.

Lemma tokenize_well_formed_witness :
  forallb well_formed_token ["("; "-1.5"; "+"; "x"] = true.
Proof.
  apply (tokenize_well_formed "(-1.5 + x)"). vm_compute. reflexivity.
Defined.

(** ** Names of more than one letter *)

Lemma alpha_char (c : ascii) :
  isalpha_char c = true ->
  Ascii.eqb c " " || Ascii.eqb c ")" = false /\
  (forall inp_str i, extends_number inp_str i c = Ok false) /\
  String.eqb (char_token c) "*" = false /\
  String.eqb (char_token c) "" = false.
Proof.
  destruct c as [[] [] [] [] [] [] [] []]; vm_compute; intuition congruence.
Qed.

Lemma tokenize_loop_letters (inp_str s rest : string) :
  all_chars isalpha_char s = true ->
  forall (i : nat) (tokenized : list string),
    tokenize_loop inp_str (s +:+ rest) i tokenized ""
    = tokenize_loop inp_str rest (i + String.length s)
        (tokenized ++ letter_tokens s) "".
Proof.
  induction s as [|c s IH]; intros H i tokenized.
  - rewrite append_nil, app_nil_r. simpl. rewrite Nat.add_0_r. reflexivity.
  - simpl in H. apply andb_true_iff in H as [Hc Hs].
    destruct (alpha_char c Hc) as (Hsk & Hext & _).
    rewrite append_cons. cbn [tokenize_loop]. rewrite Hsk, Hext. unbind.
    change (String.eqb "" "") with true. cbv iota.
    rewrite (IH Hs). cbn [letter_tokens]. rewrite <- app_assoc.
    f_equal. simpl. lia.
Qed.

Lemma expression_loop_no_star (tokenized_lst todo : list string) :
  forallb (fun t => negb (String.eqb t "*")) todo = true ->
  forall (i : nat) (new_tok_list : list string),
    expression_loop tokenized_lst todo i new_tok_list
    = Ok (new_tok_list ++ todo).
Proof.
  induction todo as [|t todo IH]; intros H i new_tok_list.
  - rewrite app_nil_r. reflexivity.
  - simpl in H. apply andb_true_iff in H as [Ht Hrest].
    apply negb_true_iff in Ht. cbn [expression_loop]. rewrite Ht. unbind.
    rewrite (IH Hrest), <- app_assoc. reflexivity.
Qed.

Lemma letter_tokens_no_star (s : string) :
  all_chars isalpha_char s = true ->
  forallb (fun t => negb (String.eqb t "*")) (letter_tokens s) = true.
Proof.
  induction s as [|c s IH]; [reflexivity|].
  cbn [letter_tokens forallb all_chars]. intros H.
  apply andb_true_iff in H as [Hc Hs].
  destruct (alpha_char c Hc) as (_ & _ & Hstar & _).
  rewrite Hstar, (IH Hs). reflexivity.
Qed.

Lemma tokenize_loop_sentinel (inp_str : string) (i : nat)
    (tokenized : list string) :
  tokenize_loop inp_str "|" i tokenized "" = Ok (tokenized ++ ["|"]).
Proof. reflexivity. Qed.

Lemma case_sentinel (t : string) (tokens : list string) :
  String.eqb t "" = false ->
  case ((t :: tokens) ++ ["|"]) = Ok (t :: tokens).
Proof.
  intros Ht. unfold case. rewrite removelast_last. cbn [app]. rewrite Ht.
  reflexivity.
Qed.

(** A name of several letters is cut into its letters, and [expression]
    returns the variable of the first letter alone: only one-letter names
    can be written in the text. *)
Theorem expression_of_name (c : ascii) (rest : string) :
  isalpha (String c rest) = true ->
  tokenize (String c rest) = Ok (letter_tokens (String c rest)) /\
  expression (String c rest) = Some (Ok (Var (String c ""))).
Proof.
  intros H. unfold isalpha in H.
  assert (tokenize (String c rest) = Ok (letter_tokens (String c rest)))
    as Htok.
  { unfold tokenize.
    rewrite (tokenize_loop_letters _ (String c rest) "|" H).
    rewrite tokenize_loop_sentinel. unbind. cbn [app letter_tokens].
    apply (case_sentinel (char_token c) (letter_tokens rest)).
    simpl in H. apply andb_true_iff in H as [Hc _].
    apply (alpha_char c Hc). }
  split; [exact Htok|].
  unfold expression. rewrite Htok.
  rewrite (expression_loop_no_star _ _ (letter_tokens_no_star _ H)).
  cbn [app letter_tokens].
  simpl in H. apply andb_true_iff in H as [Hc _].
  assert (forms [char_token c] (Var (char_token c))) as Hf
    by (apply forms_variable; simpl; rewrite Hc; reflexivity).
  unfold parse.
  pose proof (parse_expression_forms [char_token c] _ Hf
                (S (length (char_token c :: letter_tokens rest))) []
                (letter_tokens rest)) as Hp.
  cbn [app length Nat.add] in Hp. cbn [length]. rewrite Hp; [reflexivity|lia].
Qed.

(** ["xy"] is read as [x]. *)
Lemma expression_of_name_witness :
  tokenize "xy" = Ok ["x"; "y"] /\ expression "xy" = Some (Ok (Var "x")).
Proof. apply (expression_of_name "x" "y"). reflexivity. Defined.

(** ** A text that ends with a star *)

Lemma py_index_in_range {A} (l : list A) (k : Z) :
  - Z.of_nat (length l) <= k < Z.of_nat (length l) ->
  exists x, py_index l k = Ok x.
Proof.
  intros Hk. unfold py_index.
  set (j := if k <? 0 then k + Z.of_nat (length l) else k).
  assert (0 <= j < Z.of_nat (length l)) as Hj
    by (unfold j; destruct (Z.ltb_spec k 0); lia).
  destruct (Z.ltb_spec j 0) as [H|_]; [lia|].
  destruct (Z.leb_spec (Z.of_nat (length l)) j) as [H|_]; [lia|].
  simpl. destruct (l !! Z.to_nat j) as [x|] eqn:E; [eauto|].
  apply lookup_ge_None in E. lia.
Qed.

Lemma py_index_past_end {A} (l : list A) (k : Z) :
  Z.of_nat (length l) <= k -> py_index l k = Raise IndexError.
Proof.
  intros Hk. unfold py_index.
  destruct (Z.ltb_spec k 0) as [H|_]; [lia|].
  destruct (Z.ltb_spec k 0) as [H|_]; [lia|].
  destruct (Z.leb_spec (Z.of_nat (length l)) k) as [_|H]; [reflexivity|lia].
Qed.

Lemma expression_loop_trailing_star (todo : list string) :
  forall (before new_tok_list : list string),
    expression_loop (before ++ todo ++ ["*"]) (todo ++ ["*"]) (length before)
      new_tok_list
    = Raise IndexError.
Proof.
  induction todo as [|t todo IH]; intros before new_tok_list.
  - cbn [app expression_loop]. change (String.eqb "*" "*") with true.
    cbv iota.
    rewrite (py_index_past_end (before ++ ["*"]) (Z.of_nat (length before) + 1));
      [reflexivity|].
    rewrite length_app. simpl. lia.
  - cbn [app expression_loop].
    assert (before ++ t :: todo ++ ["*"] = (before ++ [t]) ++ todo ++ ["*"])
      as E by (rewrite <- app_assoc; reflexivity).
    assert (S (length before) = length (before ++ [t])) as El
      by (rewrite length_app; simpl; lia).
    assert (forall new, expression_loop (before ++ t :: todo ++ ["*"])
                          (todo ++ ["*"]) (S (length before)) new
                        = Raise IndexError) as Hnext
      by (intros new; rewrite E, El; apply IH).
    assert (length (before ++ t :: todo ++ ["*"])
            = (length before + S (length todo + 1))%nat) as Hlen
      by (rewrite !length_app; simpl; rewrite length_app; reflexivity).
    destruct (String.eqb t "*"); unbind; [|apply Hnext].
    destruct (py_index_in_range (before ++ t :: todo ++ ["*"])
                (Z.of_nat (length before) + 1)) as [next ->]; [lia|].
    destruct (String.eqb next "*"); [apply Hnext|].
    destruct (py_index_in_range (before ++ t :: todo ++ ["*"])
                (Z.of_nat (length before) - 1)) as [prev ->]; [lia|].
    destruct (String.eqb prev "*"); apply Hnext.
Qed.

Lemma tokenize_trailing_star (s : string) :
  tokenize (s +:+ "*") = Raise IndexError \/
  exists tokens, tokenize (s +:+ "*") = Ok (tokens ++ ["*"]).
Proof.
  unfold tokenize. rewrite append_assoc.
  destruct (tokenize_loop_prefix (s +:+ "*") s ("*" +:+ "|") 0 [] "")
    as [H|(tokenized & num_add & H)]; rewrite H; [left; reflexivity|].
  right. change ("*" +:+ "|") with (String "*" "|").
  set (T := if String.eqb num_add "" then tokenized
            else tokenized ++ [num_add]).
  assert (tokenize_loop (s +:+ "*") (String "*" "|")
            (0 + String.length s) tokenized num_add
          = Ok ((T ++ ["*"]) ++ ["|"])) as -> by reflexivity.
  unbind. unfold case.
  destruct ((T ++ ["*"]) ++ ["|"]) as [|t0 l0] eqn:E0;
    [destruct T; discriminate|].
  rewrite <- E0, removelast_last.
  destruct T as [|t T'].
  - exists []. reflexivity.
  - cbn [app]. destruct (String.eqb t ""); eauto.
    exists (t :: T'). reflexivity.
Qed.

(** A text that ends with a star makes [expression] raise [IndexError]:
    the test for [**] reads the token behind the last one. *)
Theorem expression_trailing_star (s : string) :
  expression (s +:+ "*") = Some (Raise IndexError).
Proof.
  unfold expression.
  destruct (tokenize_trailing_star s) as [-> | [tokens ->]]; [reflexivity|].
  pose proof (expression_loop_trailing_star tokens [] []) as H.
  cbn [app length] in H. rewrite H. reflexivity.
Qed.

(** ** What [parse] accepts *)

Lemma forms_length (pre : list string) (e : expr) :
  forms pre e -> length pre = (node_count e + binop_count e)%nat.
Proof.
  induction 1 as [token f Hs Hf|token Ha|operator cls tl tr l r Hc Hl IHl Hr IHr];
    [reflexivity|reflexivity|].
  simpl. rewrite length_app. simpl. lia.
Qed.

Lemma forms_float_leaves (pre : list string) (e : expr) :
  forms pre e -> float_leaves e = true.
Proof.
  induction 1 as [token f Hs Hf|token Ha|operator cls tl tr l r Hc Hl IHl Hr IHr];
    [reflexivity|reflexivity|].
  simpl. rewrite IHl, IHr. reflexivity.
Qed.

(** The tokens [parse_expression] reads from [index] up to the index it
    returns form the tree it returns. *)
Lemma parse_expression_sound (fuel : nat) :
  forall (tokens : list string) (index : nat) (e : expr) (next : nat),
    parse_expression fuel tokens index = Some (Ok (Some (e, next))) ->
    exists pre, forms pre e /\ drop index tokens = pre ++ drop next tokens.
Proof.
  induction fuel as [|fuel IH]; intros tokens index e next H;
    [discriminate|].
  cbn [parse_expression] in H.
  destruct (py_index tokens (Z.of_nat index)) as [token|] eqn:Htok;
    [|discriminate].
  rewrite (py_index_drop _ _ _ Htok).
  destruct (starts_number token) as [[]|] eqn:Hs; [| |discriminate].
  { unbind. destruct (py_float_of_string token) as [f|] eqn:Hf;
      [|discriminate].
    injection H as <- <-. exists [token]. split; [|reflexivity].
    apply forms_number; assumption. }
  destruct (isalpha token) eqn:Ha.
  { injection H as <- <-. exists [token]. split; [|reflexivity].
    apply forms_variable; assumption. }
  destruct (String.eqb_spec token "(") as [->|_]; [|discriminate].
  destruct (parse_expression fuel tokens (S index)) as [[[[l opp_ind]|]|]|]
    eqn:Hl; try discriminate.
  cbn [unpack] in H.
  destruct (py_index tokens (Z.of_nat opp_ind)) as [operator|] eqn:Hop;
    [|discriminate].
  destruct (parse_expression fuel tokens (S opp_ind)) as [[[[r nxt]|]|]|]
    eqn:Hr; try discriminate.
  cbn [unpack] in H. unbind.
  destruct (symbol_dict_class operator) as [cls|] eqn:Hc; [|discriminate].
  injection H as <- <-.
  destruct (IH _ _ _ _ Hl) as (pl & Hfl & El).
  destruct (IH _ _ _ _ Hr) as (pr & Hfr & Er).
  exists ("(" :: pl ++ operator :: pr). split.
  - apply forms_binop; assumption.
  - rewrite El, (py_index_drop _ _ _ Hop), Er. cbn [app].
    rewrite <- app_assoc. reflexivity.
Qed.

(** [parse] returns a tree only when a prefix of the tokens is written in
    the grammar, and the tree is the one that prefix stands for. *)
Theorem parse_sound (tokens : list string) (e : expr) :
  parse tokens = Some (Ok e) ->
  exists pre rest, tokens = pre ++ rest /\ forms pre e.
Proof.
  unfold parse.
  destruct (parse_expression (S (length tokens)) tokens 0)
    as [[[[e' next]|]|]|] eqn:H; try discriminate.
  simpl. intros [= <-].
  destruct (parse_expression_sound _ _ _ _ _ H) as (pre & Hf & E).
  rewrite drop_0 in E. eauto.
Qed.

Lemma parse_expression_bound (fuel : nat) :
  forall (tokens : list string) (index : nat) (e : expr) (next : nat),
    parse_expression fuel tokens index = Some (Ok (Some (e, next))) ->
    (next <= length tokens)%nat.
Proof.
  induction fuel as [|fuel IH]; intros tokens index e next H;
    [discriminate|].
  cbn [parse_expression] in H.
  destruct (py_index tokens (Z.of_nat index)) as [token|] eqn:Htok;
    [|discriminate].
  apply py_index_ok in Htok.
  destruct (starts_number token) as [[]|]; [| |discriminate].
  { unbind. destruct (py_float_of_string token); [|discriminate].
    injection H as <- <-. lia. }
  destruct (isalpha token).
  { injection H as <- <-. lia. }
  destruct (String.eqb token "("); [|discriminate].
  destruct (parse_expression fuel tokens (S index)) as [[[[l opp_ind]|]|]|];
    try discriminate.
  cbn [unpack] in H.
  destruct (py_index tokens (Z.of_nat opp_ind)) as [operator|];
    [|discriminate].
  destruct (parse_expression fuel tokens (S opp_ind)) as [[[[r nxt]|]|]|]
    eqn:Hr; try discriminate.
  cbn [unpack] in H. unbind.
  destruct (symbol_dict_class operator); [|discriminate].
  injection H as <- <-. exact (IH _ _ _ _ Hr).
Qed.

(** [parse_expression] reads three tokens for every binary operation of
    the tree it returns and one more: the index moves by the number of
    nodes plus the number of binary operations. *)
Theorem parse_expression_token_count (fuel : nat) (tokens : list string)
    (index : nat) (e : expr) (next : nat) :
  parse_expression fuel tokens index = Some (Ok (Some (e, next))) ->
  next = (index + node_count e + binop_count e)%nat /\
  (next <= length tokens)%nat.
Proof.
  intros H.
  destruct (parse_expression_sound _ _ _ _ _ H) as (pre & Hf & E).
  pose proof (parse_expression_index _ _ _ _ _ H) as Hlt.
  pose proof (parse_expression_bound _ _ _ _ _ H) as Hle.
  pose proof (forms_length _ _ Hf) as Hlen.
  apply (f_equal length) in E.
  rewrite length_app, !length_drop in E.
  assert (0 < length pre)%nat by (rewrite Hlen; destruct e; simpl; lia).
  lia.
Qed.

(** Every number of a parsed tree is a float. *)
Theorem parse_float_leaves (tokens : list string) (e : expr) :
  parse tokens = Some (Ok e) -> float_leaves e = true.
Proof.
  unfold parse.
  destruct (parse_expression (S (length tokens)) tokens 0)
    as [[[[e' next]|]|]|] eqn:H; try discriminate.
  simpl. intros [= <-].
  destruct (parse_expression_sound _ _ _ _ _ H) as (pre & Hf & _).
  exact (forms_float_leaves pre e' Hf).
Qed.

Lemma parse_sound_witness :
  exists pre rest,
    ["("; "x"; "+"; "y"; "z"] = pre ++ rest /\
    forms pre (BinOp Add (Var "x") (Var "y")).
Proof.
  apply (parse_sound ["("; "x"; "+"; "y"; "z"] (BinOp Add (Var "x") (Var "y"))).
  vm_compute. reflexivity.
Defined.

Lemma parse_expression_token_count_witness :
  4%nat = (0 + node_count (BinOp Add (Var "x") (Var "y"))
           + binop_count (BinOp Add (Var "x") (Var "y")))%nat /\
  (4 <= length ["("; "x"; "+"; "y"; "z"])%nat.
Proof.
  apply (parse_expression_token_count 6 ["("; "x"; "+"; "y"; "z"] 0
           (BinOp Add (Var "x") (Var "y")) 4).
  vm_compute. reflexivity.
Defined.

Lemma parse_float_leaves_witness :
  float_leaves (BinOp Mul (Num (PyFloat (float_of_Z 2))) (Var "x")) = true.
Proof.
  apply (parse_float_leaves ["("; "2"; "*"; "x"]). vm_compute. reflexivity.
Defined.

(** ** What [parse] rejects *)

Lemma parse_expression_past_end (fuel : nat) (tokens : list string)
    (index : nat) :
  (0 < fuel)%nat -> (length tokens <= index)%nat ->
  parse_expression fuel tokens index = Some (Raise IndexError).
Proof.
  intros Hf Hi. destruct fuel as [|fuel]; [lia|]. cbn [parse_expression].
  rewrite py_index_past_end; [reflexivity|lia].
Qed.

(** [parse_expression] at an opening parenthesis, once the left operand is
    read. *)
Lemma parse_expression_paren (fuel : nat) (before tl rest : list string)
    (l : expr) :
  forms tl l -> (length tl <= fuel)%nat ->
  let tokens := before ++ "(" :: tl ++ rest in
  let opp_ind := S (length before + length tl) in
  parse_expression (S fuel) tokens (length before) =
  match py_index tokens (Z.of_nat opp_ind) with
  | Raise x => Some (Raise x)
  | Ok operator =>
      match parse_expression fuel tokens (S opp_ind) with
      | None => None
      | Some (Raise x) => Some (Raise x)
      | Some (Ok right_r) =>
          Some ('(right_exp, right_paren) ← unpack right_r;
                cls ← symbol_dict_class operator;
                Ok (Some (BinOp cls l right_exp, right_paren)))
      end
  end.
Proof.
  intros Hl Hfuel tokens opp_ind. subst tokens opp_ind.
  cbn [parse_expression]. rewrite py_index_middle.
  change (starts_number "(") with (@Ok bool false).
  change (isalpha "(") with false.
  change (String.eqb "(" "(") with true. cbv iota.
  assert (before ++ "(" :: tl ++ rest = (before ++ ["("]) ++ tl ++ rest) as E
    by (rewrite <- app_assoc; reflexivity).
  assert (S (length before) = length (before ++ ["("])) as El
    by (rewrite length_app; simpl; lia).
  rewrite E, El, (parse_expression_forms tl l Hl fuel _ _ Hfuel).
  cbn [unpack].
  replace (length (before ++ ["("]) + length tl)%nat
    with (S (length before + length tl))
    by (rewrite length_app; simpl; lia).
  reflexivity.
Qed.

(** An operator that is not one of the five raises [KeyError], and only
    after both operands are parsed. *)
Theorem parse_unknown_operator (tl tr rest : list string) (l r : expr)
    (operator : string) :
  forms tl l -> forms tr r ->
  symbol_dict_class operator = Raise KeyError ->
  parse ("(" :: tl ++ operator :: tr ++ rest) = Some (Raise KeyError).
Proof.
  intros Hl Hr Hop. unfold parse. cbn [length].
  pose proof (parse_expression_paren
                (length ("(" :: tl ++ operator :: tr ++ rest)) []
                tl (operator :: tr ++ rest) l Hl) as Hp.
  cbn [app length Nat.add] in Hp. rewrite Hp;
    [|simpl; rewrite length_app; lia].
  assert ("(" :: tl ++ operator :: tr ++ rest
          = ("(" :: tl) ++ operator :: tr ++ rest) as E1 by reflexivity.
  assert (S (length tl) = length ("(" :: tl)) as L1 by reflexivity.
  rewrite E1, L1, py_index_middle.
  assert (("(" :: tl) ++ operator :: tr ++ rest
          = (("(" :: tl) ++ [operator]) ++ tr ++ rest) as E2
    by (rewrite <- app_assoc; reflexivity).
  assert (S (length ("(" :: tl)) = length (("(" :: tl) ++ [operator])) as L2
    by (rewrite length_app; simpl; lia).
  rewrite E2, L2, (parse_expression_forms tr r Hr).
  - cbn [unpack]. unbind. rewrite Hop. reflexivity.
  - rewrite !length_app. simpl. rewrite length_app. lia.
Qed.

(** Tokens that end before the expression is complete raise [IndexError]:
    an empty list, an opening parenthesis with its left operand and nothing
    more, and the same with an operator and no right operand. *)
Theorem parse_premature_end (tl : list string) (l : expr) :
  forms tl l ->
  parse [] = Some (Raise IndexError) /\
  parse ("(" :: tl) = Some (Raise IndexError) /\
  forall operator, parse ("(" :: tl ++ [operator]) = Some (Raise IndexError).
Proof.
  intros Hl. split; [reflexivity|]. split.
  - unfold parse. cbn [length].
    pose proof (parse_expression_paren (length ("(" :: tl)) [] tl [] l Hl) as Hp.
    cbn [app length Nat.add] in Hp. rewrite app_nil_r in Hp.
    rewrite Hp; [|lia].
    rewrite py_index_past_end; [reflexivity|]. simpl. lia.
  - intros operator. unfold parse. cbn [length].
    pose proof (parse_expression_paren (length ("(" :: tl ++ [operator])) []
                  tl [operator] l Hl) as Hp.
    cbn [app length Nat.add] in Hp. rewrite Hp;
      [|simpl; rewrite length_app; lia].
    assert ("(" :: tl ++ [operator] = ("(" :: tl) ++ [operator]) as E1
      by reflexivity.
    assert (S (length tl) = length ("(" :: tl)) as L1 by reflexivity.
    rewrite E1, L1, py_index_middle.
    rewrite parse_expression_past_end; [reflexivity| |].
    + rewrite length_app. simpl. lia.
    + rewrite length_app. simpl. lia.
Qed.

(** A first token that is neither a number, nor a name, nor an opening
    parenthesis makes [parse] raise [TypeError]: [parse_expression] returns
    nothing for it, and nothing cannot be unpacked.  A first token that
    starts like a number and is none raises [ValueError]. *)
Theorem parse_bad_first_token (token : string) (rest : list string) :
  (starts_number token = Ok false -> isalpha token = false ->
   String.eqb token "(" = false ->
   parse (token :: rest) = Some (Raise TypeError)) /\
  (starts_number token = Ok true ->
   py_float_of_string token = Raise ValueError ->
   parse (token :: rest) = Some (Raise ValueError)).
Proof.
  pose proof (py_index_middle [] rest token) as Hi.
  cbn [app length] in Hi.
  split.
  - intros Hs Ha Hp. unfold parse. cbn [parse_expression length].
    rewrite Hi, Hs, Ha, Hp. reflexivity.
  - intros Hs Hf. unfold parse. cbn [parse_expression length].
    rewrite Hi, Hs, Hf. reflexivity.
Qed.

Lemma parse_unknown_operator_witness :
  parse ("(" :: ["x"] ++ "^" :: ["y"] ++ []) = Some (Raise KeyError).
Proof.
  apply (parse_unknown_operator ["x"] ["y"] [] (Var "x") (Var "y") "^");
    [apply forms_variable; reflexivity..|reflexivity].
Defined.

Lemma parse_premature_end_witness :
  parse [] = Some (Raise IndexError) /\
  parse ("(" :: ["x"]) = Some (Raise IndexError) /\
  forall operator, parse ("(" :: ["x"] ++ [operator]) = Some (Raise IndexError).
Proof.
  apply (parse_premature_end ["x"] (Var "x")).
  apply forms_variable. reflexivity.
Defined.

(** A text that starts with an operator, and a lone minus sign. *)
Lemma parse_bad_first_token_witness :
  parse ["+"; "1"] = Some (Raise TypeError) /\
  parse ["-"] = Some (Raise ValueError).
Proof.
  split.
  - apply (proj1 (parse_bad_first_token "+" ["1"])); reflexivity.
  - apply (proj2 (parse_bad_first_token "-" [])); reflexivity.
Defined.

(** ** [__repr__] determines the tree *)


(** A run of characters that pass [p] is cut off in one way only. *)
Lemma run_unique (p : ascii -> bool) (a : string) :
  forall (b t1 t2 : string),
    all_chars p a = true -> all_chars p b = true ->
    stops p t1 = true -> stops p t2 = true ->
    a +:+ t1 = b +:+ t2 -> a = b /\ t1 = t2.
Proof.
  induction a as [|c a IH]; intros [|d b] t1 t2 Ha Hb H1 H2;
    rewrite ?append_nil, ?append_cons.
  - auto.
  - intros ->. simpl in Hb, H1. apply andb_true_iff in Hb as [Hd _].
    rewrite Hd in H1. discriminate.
  - intros <-. simpl in Ha, H2. apply andb_true_iff in Ha as [Hc _].
    rewrite Hc in H2. discriminate.
  - intros [= -> H]. simpl in Ha, Hb.
    apply andb_true_iff in Ha as [_ Ha]. apply andb_true_iff in Hb as [_ Hb].
    destruct (IH b t1 t2 Ha Hb H1 H2 H) as [-> ->]. auto.
Qed.

Lemma int_literal_chars (z : Z) :
  all_chars int_char (NilZero.string_of_int (Z.to_int z)) = true.
Proof.
  assert (forall d, all_chars int_char (NilEmpty.string_of_uint d) = true) as Hd
    by (induction d; simpl; auto).
  destruct z as [|p|p]; [reflexivity| |]; simpl;
    pose proof (Unsigned.to_uint_nonnil p) as Hp;
    (destruct (Pos.to_uint p) eqn:E; [congruence|..]); apply Hd.
Qed.

Lemma int_literal_inj (z1 z2 : Z) :
  NilZero.string_of_int (Z.to_int z1) = NilZero.string_of_int (Z.to_int z2) ->
  z1 = z2.
Proof.
  assert (forall z, NilZero.int_of_string (NilZero.string_of_int (Z.to_int z))
                    = Some (Z.to_int z)) as Hisi.
  { intros z. apply NilZero.isi; destruct z as [|p|p]; simpl;
      try discriminate;
      intros [= H]; exact (Unsigned.to_uint_nonnil p H). }
  intros H. apply (f_equal NilZero.int_of_string) in H.
  rewrite !Hisi in H. injection H as H.
  apply (f_equal Z.of_int) in H. rewrite !DecimalZ.of_to in H. exact H.
Qed.

Lemma repr_ok `{pf : Platform} (e : expr) : exists s, repr e = Ok s.
Proof.
  induction e as [name|n|cls l [sl Hl] r [sr Hr]]; simpl; eauto.
  rewrite Hl, Hr. destruct cls; simpl; eauto.
Qed.

Ltac expose_text H :=
  repeat (rewrite append_assoc in H || rewrite append_cons in H
          || rewrite append_nil in H).

(** A text that starts with the [__repr__] of a tree starts with that of
    no other tree. *)
Lemma repr_unique `{pf : Platform} (e1 : expr) :
  forall (e2 : expr) (r1 r2 s1 s2 : string),
    quotable_leaves e1 = true -> quotable_leaves e2 = true ->
    repr e1 = Ok r1 -> repr e2 = Ok r2 ->
    r1 +:+ s1 = r2 +:+ s2 -> e1 = e2 /\ s1 = s2.
Proof.
  induction e1 as [name1|n1|cls1 l1 IHl r1' IHr];
    intros [name2|n2|cls2 l2 r2'] r1 r2 s1 s2 Hq1 Hq2 H1 H2 H;
    simpl in H1, H2;
    try (destruct (repr_ok l1) as [sl1 Hl1]; rewrite Hl1 in H1;
         destruct (repr_ok r1') as [sr1 Hr1]; rewrite Hr1 in H1;
         destruct cls1; simpl in H1);
    try (destruct (repr_ok l2) as [sl2 Hl2]; rewrite Hl2 in H2;
         destruct (repr_ok r2') as [sr2 Hr2]; rewrite Hr2 in H2;
         destruct cls2; simpl in H2);
    injection H1 as <-; injection H2 as <-;
    expose_text H; try discriminate H.
  { injection H as H. simpl in Hq1, Hq2.
    apply (run_unique name_char) in H as [-> H];
      [|assumption|assumption|reflexivity|reflexivity].
    expose_text H. injection H as ->. auto. }
  { destruct n1 as [z1|?|? ?]; try discriminate Hq1.
    destruct n2 as [z2|?|? ?]; try discriminate Hq2.
    injection H as H. simpl in H.
    apply (run_unique int_char) in H as [Hz H];
      [|apply int_literal_chars|apply int_literal_chars
       |reflexivity|reflexivity].
    apply int_literal_inj in Hz as ->.
    expose_text H. injection H as ->. auto. }
  all: simpl in Hq1, Hq2;
    apply andb_true_iff in Hq1 as [Hq1l Hq1r];
    apply andb_true_iff in Hq2 as [Hq2l Hq2r];
    injection H as H;
    destruct (IHl l2 _ _ _ _ Hq1l Hq2l Hl1 Hl2 H) as [-> H'];
    injection H' as H';
    destruct (IHr r2' _ _ _ _ Hq1r Hq2r Hr1 Hr2 H') as [-> H''];
    injection H'' as ->; auto.
Qed.

Section ReprFacts.
Context {pf : Platform}.

(** [__repr__] determines the tree, where [__str__] does not: two trees
    with int numbers and names without a quote that have the same
    [__repr__] are the same tree.  ([__repr__] itself never raises, every
    class's [opp] being a key of [symbol_dict].) *)
Theorem repr_determines_tree (e1 e2 : expr) :
  quotable_leaves e1 = true -> quotable_leaves e2 = true ->
  repr e1 = repr e2 -> e1 = e2.
Proof.
  intros Hq1 Hq2 H.
  destruct (repr_ok e1) as [s1 H1]. destruct (repr_ok e2) as [s2 H2].
  assert (s1 = s2) as Hs by congruence.
  apply (repr_unique e1 e2 s1 s2 "" "" Hq1 Hq2 H1 H2). congruence.
Qed.
End ReprFacts.

(** ** [simplify] against [eval] *)

Section SimplifyAgainstEval.
Context {pf : Platform}.

(** [Div.simplify] returns [Num(0)] for a zero numerator once both
    children are simplified, without looking at what the denominator came
    to, so it hides a division by zero: when [r] simplifies without raising
    and evaluates to an int or float zero, [Div(Num(0), r)] raises
    [ZeroDivisionError] under [eval], while its simplified form is [Num(0)]
    and evaluates to [0.0]. *)
Theorem simplify_hides_division_by_zero
    (r rs : expr) (assignments : gmap string pynum) (v : pynum) :
  simplify r = Ok rs ->
  eval r assignments = Ok (Some v) ->
  is_zero v = true ->
  eval (BinOp Div (Num (PyInt 0)) r) assignments = Raise ZeroDivisionError /\
  exists s,
    simplify (BinOp Div (Num (PyInt 0)) r) = Ok s /\
    eval s assignments = Ok (Some (PyFloat fzero)).
Proof.
  intros Hs He Hz. split.
  - cbn [eval]. rewrite He.
    destruct v as [z|f|re im]; [| |discriminate Hz].
    + apply Z.eqb_eq in Hz as ->. reflexivity.
    + simpl in Hz. vm_compute py_float. cbn. unfold float_div.
      rewrite Hz. reflexivity.
  - exists (Num (PyInt 0)). split; [|reflexivity].
    cbn [simplify]. rewrite Hs. reflexivity.
Qed.

End SimplifyAgainstEval.

(** At [Div(Num(0), x)] with [x] bound to the int [0]. *)
Lemma simplify_hides_division_by_zero_witness :
  on_every_platform (fun pf =>
    eval (BinOp Div (Num (PyInt 0)) (Var "x")) {[ "x" := PyInt 0 ]}
      = Raise ZeroDivisionError /\
    exists s,
      simplify (BinOp Div (Num (PyInt 0)) (Var "x")) = Ok s /\
      eval s {[ "x" := PyInt 0 ]} = Ok (Some (PyFloat fzero))).
Proof.
  intros pf.
  apply (simplify_hides_division_by_zero (Var "x") (Var "x")
           {[ "x" := PyInt 0 ]} (PyInt 0)); reflexivity.
Defined.

(** [__repr__] at [Add(Var('x'), Num(2))]. *)
Lemma repr_determines_tree_witness :
  on_every_platform (fun pf =>
    quotable_leaves (BinOp Add (Var "x") (Num (PyInt 2))) = true /\
    BinOp Add (Var "x") (Num (PyInt 2)) = BinOp Add (Var "x") (Num (PyInt 2))).
Proof.
  intros pf. split; [reflexivity|].
  apply (repr_determines_tree (BinOp Add (Var "x") (Num (PyInt 2)))
           (BinOp Add (Var "x") (Num (PyInt 2)))); reflexivity.
Defined.
